(** * label-maker: a shallow embedding of [labels.py]

    The development models the deduplicator ([norm], [row_to_string],
    [hash_row], [load_hashes], [save_hashes], [filter_new]), the label
    layout loop of [generate_labels], and the module-level orchestration
    at the end of the script.

    Modelling conventions.
    - Characters are [Ascii.ascii] read as the Unicode code points 0..255
      (Latin-1); Python's [str.lower] and [str.isspace] are written out
      for that range.
    - A pandas cell is a [cell]: a missing value (NaN), a string, an
      integer, or a float that holds an integral value.
    - Python sets of hash strings are [gset string]; the file system is a
      [gmap] from path to file contents.
    - Side effects on disk are a list of [event]s; a Python exception is
      an [option py_exc] returned next to the events already performed.
    - Page geometry is computed in [Q]; every floor taken there is far
      from an integer boundary, so IEEE rounding does not change it. *)

From Stdlib Require Import QArith Qround.
From stdpp Require Import base gmap sets list strings.
From Stdlib Require Import Ascii String Sorted.

Open Scope list_scope.

(* ================================================================= *)
(** ** Python strings *)

Definition code (c : ascii) : nat := nat_of_ascii c.

(** [str.isspace] on code points below 256. *)
Definition py_isspace (c : ascii) : bool :=
  let n := code c in
  ((9 <=? n) && (n <=? 13)) || ((28 <=? n) && (n <=? 32)) ||
  (n =? 133) || (n =? 160).

(** [str.lower] on one code point below 256: A-Z and the Latin-1
    capitals U+00C0..U+00DE except U+00D7 move up by 32. *)
Definition py_lower_char (c : ascii) : ascii :=
  let n := code c in
  if ((65 <=? n) && (n <=? 90)) ||
     ((192 <=? n) && (n <=? 222) && negb (n =? 215))
  then ascii_of_nat (n + 32) else c.

Definition py_lower (s : list ascii) : list ascii := map py_lower_char s.

(** [str.lstrip()], [str.rstrip()], [str.strip()]. *)
Fixpoint py_lstrip (s : list ascii) : list ascii :=
  match s with
  | [] => []
  | c :: t => if py_isspace c then py_lstrip t else s
  end.

Definition py_rstrip (s : list ascii) : list ascii :=
  rev (py_lstrip (rev s)).

Definition py_strip (s : list ascii) : list ascii :=
  py_rstrip (py_lstrip s).

Definition chars (s : string) : list ascii := list_ascii_of_string s.
Definition str (l : list ascii) : string := string_of_list_ascii l.

(** [str(n)] for a Python [int]. *)
Fixpoint uint_chars (d : Decimal.uint) : list ascii :=
  match d with
  | Decimal.Nil => []
  | Decimal.D0 d => "0"%char :: uint_chars d
  | Decimal.D1 d => "1"%char :: uint_chars d
  | Decimal.D2 d => "2"%char :: uint_chars d
  | Decimal.D3 d => "3"%char :: uint_chars d
  | Decimal.D4 d => "4"%char :: uint_chars d
  | Decimal.D5 d => "5"%char :: uint_chars d
  | Decimal.D6 d => "6"%char :: uint_chars d
  | Decimal.D7 d => "7"%char :: uint_chars d
  | Decimal.D8 d => "8"%char :: uint_chars d
  | Decimal.D9 d => "9"%char :: uint_chars d
  end.

Definition py_int_str (z : Z) : list ascii :=
  match z with
  | Z0 => ["0"%char]
  | Zpos p => uint_chars (Pos.to_uint p)
  | Zneg p => "-"%char :: uint_chars (Pos.to_uint p)
  end.

(* ================================================================= *)
(** ** Cells and rows of the data frame *)

(** A value of a pandas cell. [FloatI z] is a float64 holding the
    integral value [z] with [|z| < 10^16] (pandas turns an integer column
    with a blank cell into float64), which [str] prints as ["<z>.0"]. *)
Inductive cell :=
| Missing
| Text (s : string)
| Int (z : Z)
| FloatI (z : Z).

(** [pd.isna] *)
Definition pd_isna (c : cell) : bool :=
  match c with Missing => true | _ => false end.

(** [str(c)]; a NaN prints as ["nan"]. *)
Definition py_str (c : cell) : list ascii :=
  match c with
  | Missing => chars "nan"
  | Text s => chars s
  | Int z => py_int_str z
  | FloatI z => py_int_str z ++ chars ".0"
  end.

(** The three columns read by the script. *)
Record row := mkRow { Magazine : cell; Edition : cell; Year : cell }.

(** [norm(s)]: [""] for a missing value, else [str(s).lower().strip()]. *)
Definition norm (c : cell) : list ascii :=
  if pd_isna c then [] else py_strip (py_lower (py_str c)).

(** [row_to_string(row)]: the canonical key ["|".join(...)]. *)
Definition row_to_string (r : row) : string :=
  str (norm (Magazine r) ++ ["|"%char] ++ norm (Edition r) ++ ["|"%char]
       ++ norm (Year r)).

(* ================================================================= *)
(** ** Exceptions, canvas operations and disk events *)

(** The Python exceptions that can end a run. [ValueError] also stands
    for its subclasses (pandas' [ParserError] and [EmptyDataError]);
    [KeyError] is a missing column; [OtherError cls msg] any other
    exception, of class [cls], raised by reportlab or pandas. *)
Inductive py_exc :=
| ValueError (msg : string)
| FileNotFoundError (msg : string)
| ZeroDivisionError
| KeyError (msg : string)
| OtherError (cls msg : string).

(** Drawing calls made on the reportlab canvas. *)
Inductive op :=
| SetDash (pattern : list nat)
| Rect (x y w h : Q)
| DrawPara (style : string) (text : cell) (x y : Q)
| ShowPage.

(** Operations of the script that reach the disk or the console.
    [ETruncate] is [open(path, "w")], [EAppend] one [f.write], and
    [ESavePdf] the [c.save()] that writes the finished document. *)
Inductive event :=
| EPrint (s : string)
| ETruncate (p : string)
| EAppend (p s : string)
| ESavePdf (p : string) (pages : list (list op)).

(** Python's [a % b] and [a // b] on non-negative ints; [None] is the
    [ZeroDivisionError] raised for [b = 0]. *)
Definition py_mod (a b : nat) : option nat :=
  if b =? 0 then None else Some (a mod b).
Definition py_div (a b : nat) : option nat :=
  if b =? 0 then None else Some (a / b).

(* ================================================================= *)
(** ** Label configuration and page geometry *)

Record label_config := mkConfig {
  label_w : Q; label_h : Q;
  mag_style_name : string; edition_style_name : string;
  left_margin : Q; right_margin : Q; top_margin : Q; bottom_margin : Q;
  line_gap : Q }.

(** The [if mode == "clippings": ... else: ...] block. *)
Definition config_of (mode : string) : label_config :=
  if String.eqb mode "clippings" then
    {| label_w := 50 * (283 # 100); label_h := 13 * (283 # 100);
       mag_style_name := "mag"; edition_style_name := "edition";
       left_margin := 6; right_margin := 6; top_margin := 4;
       bottom_margin := 6; line_gap := 2 |}
  else
    {| label_w := 30 * (283 # 100); label_h := 15 * (283 # 100);
       mag_style_name := "mini_mag"; edition_style_name := "mini_edition";
       left_margin := 4; right_margin := 4; top_margin := 3;
       bottom_margin := 4; line_gap := 1 |}.

(** [reportlab.lib.units.mm] and [A4] in points. *)
Definition mm : Q := 72 / (254 # 10).
Definition A4_width : Q := 210 * mm.
Definition A4_height : Q := 297 * mm.

Definition page_margin_left : Q := 20.
Definition page_margin_right : Q := 20.
Definition page_margin_top : Q := 20.
Definition page_margin_bottom : Q := 20.

Definition usable_width : Q := A4_width - page_margin_left - page_margin_right.
Definition usable_height : Q := A4_height - page_margin_top - page_margin_bottom.

(** [cols = int(usable_width // label_w)] and
    [rows_per_page = int(usable_height // label_h)]. *)
Definition grid_cols (cfg : label_config) : nat :=
  Z.to_nat (Qfloor (usable_width / label_w cfg)).
Definition grid_rows (cfg : label_config) : nat :=
  Z.to_nat (Qfloor (usable_height / label_h cfg)).

Definition inject_nat (n : nat) : Q := inject_Z (Z.of_nat n).

(** [x0] and [y0], the top-left corner of the grid. *)
Definition grid_x0 (cfg : label_config) : Q :=
  page_margin_left
  + (usable_width - inject_nat (grid_cols cfg) * label_w cfg) / 2.
Definition grid_y0 : Q := A4_height - page_margin_top.

(* ================================================================= *)
(** ** Pages of a saved canvas *)

(** reportlab: [showPage] closes the current page (even an empty one);
    [save] emits the current page only when something was drawn on it
    ([if len(self._code): self.showPage()]). *)
Fixpoint pages_acc (cur : list op) (ops : list op) : list (list op) :=
  match ops with
  | [] => match cur with [] => [] | _ => [cur] end
  | ShowPage :: t => cur :: pages_acc [] t
  | o :: t => pages_acc (cur ++ [o]) t
  end.

Definition doc_pages (ops : list op) : list (list op) := pages_acc [] ops.

(** The file name used by [canvas.Canvas(f"labels_{mode}.pdf")]. *)
Definition pdf_name (mode : string) : string :=
  String.append "labels_" (String.append mode ".pdf").

(** [hash_file_for_mode(mode)] *)
Definition hash_file_for_mode (mode : string) : string :=
  String.append "printed_" (String.append mode ".hashes").

(** Lexicographic order of code points, as Python compares [str]. *)
Fixpoint str_ltb (a b : list ascii) : bool :=
  match a, b with
  | [], [] => false
  | [], _ => true
  | _, [] => false
  | x :: a', y :: b' =>
      if code x <? code y then true
      else if code y <? code x then false
      else str_ltb a' b'
  end.

Fixpoint insert_sorted (x : list ascii) (l : list (list ascii)) : list (list ascii) :=
  match l with
  | [] => [x]
  | y :: t => if str_ltb y x then y :: insert_sorted x t else x :: l
  end.

Fixpoint isort (l : list (list ascii)) : list (list ascii) :=
  match l with
  | [] => []
  | x :: t => insert_sorted x (isort t)
  end.

(** [sorted(hashes)] *)
Definition py_sorted (hs : gset string) : list string :=
  map str (isort (map chars (elements hs))).

(** Universal newlines of a file opened in text mode: ["\r\n"] and a
    lone ["\r"] are read as ["\n"]. *)
Fixpoint py_newlines (s : list ascii) : list ascii :=
  match s with
  | [] => []
  | c :: t =>
      if Ascii.eqb c "013"%char then
        "010"%char :: match t with
                      | d :: t' => if Ascii.eqb d "010"%char then py_newlines t' else py_newlines t
                      | [] => []
                      end
      else c :: py_newlines t
  end.

(** The lines produced by iterating over the decoded text: each line
    keeps its ["\n"], a last line without one is kept when non-empty. *)
Fixpoint py_lines_acc (cur : list ascii) (s : list ascii) : list (list ascii) :=
  match s with
  | [] => match cur with [] => [] | _ => [cur] end
  | c :: t =>
      if Ascii.eqb c "010"%char then (cur ++ [c]) :: py_lines_acc [] t
      else py_lines_acc (cur ++ [c]) t
  end.

Definition py_lines (s : string) : list (list ascii) := py_lines_acc [] (py_newlines (chars s)).

Definition newline : string := String "010"%char EmptyString.

(* ================================================================= *)
(** ** The script, over its external collaborators *)

Section Script.

(** [hashlib.sha256(s.encode("utf-8")).hexdigest()] *)
Variable sha256_hex : string -> string.

(** [Paragraph(text, style).wrap(w, h)]: the height of the wrapped
    paragraph ([inr]), or the exception reportlab raises ([inl]). *)
Variable para : string -> cell -> Q -> Q -> py_exc + Q.

(** [pd.read_csv(path, sep=";")] restricted to the three columns the
    script reads ([inr]), or the exception raised by reading or by a
    missing column ([inl]). *)
Variable read_csv : string -> py_exc + list row.

(** The bytes reportlab writes for a list of pages. *)
Variable render_pdf : list (list op) -> string.

(** [hash_row(row)] *)
Definition hash_row (r : row) : string := sha256_hex (row_to_string r).

(** A file system: path to text contents. *)
Definition fs_t := gmap string string.

(** [load_hashes(mode)] *)
Definition load_hashes (fs : fs_t) (mode : string) : gset string :=
  match fs !! hash_file_for_mode mode with
  | None => ∅
  | Some s => list_to_set (map (fun l => str (py_strip l)) (py_lines s))
  end.

(** [save_hashes(hashes, mode)]: [open(path, "w")] truncates the file,
    then one [f.write(h + "\n")] per hash in sorted order. *)
Definition save_hashes (hashes : gset string) (mode : string) : list event :=
  let path := hash_file_for_mode mode in
  ETruncate path :: map (fun h => EAppend path (String.append h newline)) (py_sorted hashes).

(** The [for _, row in df.iterrows()] loop of [filter_new]: [known] is
    only read, [new_rows] and [new_hashes] are accumulated. *)
Fixpoint filter_loop (known : gset string) (rows : list row)
    (new_rows : list row) (new_hashes : gset string) : list row * gset string :=
  match rows with
  | [] => (new_rows, new_hashes)
  | r :: rs =>
      let h := hash_row r in
      if decide (h ∉ known) then filter_loop known rs (new_rows ++ [r]) ({[h]} ∪ new_hashes)
      else filter_loop known rs new_rows new_hashes
  end.

(** [filter_new(df, mode)] *)
Definition filter_new (fs : fs_t) (df : list row) (mode : string) : list row * gset string :=
  let known := load_hashes fs mode in
  filter_loop known df [] known.

(** One label: lines 181-206 of [generate_labels] for a cell at column
    [col] and row [row_i]. Returns the drawing calls made, and the
    exception raised by [Paragraph] if any. *)
Definition draw_cell (cfg : label_config) (mode : string) (x0 y0 : Q)
    (col row_i : nat) (r : row) : list op * option py_exc :=
  let x := (x0 + inject_nat col * label_w cfg)%Q in
  let y := (y0 - inject_nat row_i * label_h cfg)%Q in
  let border := [SetDash [3; 3]; Rect x (y - label_h cfg)%Q (label_w cfg) (label_h cfg); SetDash []] in
  let w := (label_w cfg - left_margin cfg - right_margin cfg)%Q in
  let h := (label_h cfg - top_margin cfg - bottom_margin cfg)%Q in
  let cursor := (y - top_margin cfg)%Q in
  let cursor := if String.eqb mode "magazines" then (cursor - 1)%Q else cursor in
  match para (mag_style_name cfg) (Magazine r) w h with
  | inl e => (border, Some e)
  | inr h1 =>
      let p1 := DrawPara (mag_style_name cfg) (Magazine r) (x + left_margin cfg)%Q (cursor - h1)%Q in
      let cursor := (cursor - (h1 + line_gap cfg))%Q in
      let line2 := Text (str (py_str (Edition r) ++ ["/"%char] ++ py_str (Year r))) in
      match para (edition_style_name cfg) line2 w h with
      | inl e => (border ++ [p1], Some e)
      | inr h2 =>
          (border ++ [p1; DrawPara (edition_style_name cfg) line2 (x + left_margin cfg)%Q (cursor - h2)%Q],
           None)
      end
  end.

(** The [for row in rows] loop of [generate_labels] from index [i]. *)
Fixpoint draw_loop (cfg : label_config) (mode : string) (cols rows_per_page : nat)
    (x0 y0 : Q) (i : nat) (rows : list row) : list op * option py_exc :=
  match rows with
  | [] => ([], None)
  | r :: rs =>
      match py_mod i cols with
      | None => ([], Some ZeroDivisionError)
      | Some col =>
      match py_div i cols with
      | None => ([], Some ZeroDivisionError)
      | Some q =>
      match py_mod q rows_per_page with
      | None => ([], Some ZeroDivisionError)
      | Some row_i =>
          let (ops1, e1) := draw_cell cfg mode x0 y0 col row_i r in
          match e1 with
          | Some e => (ops1, Some e)
          | None =>
              match py_mod (S i) (cols * rows_per_page) with
              | None => (ops1, Some ZeroDivisionError)
              | Some b =>
                  let brk := if b =? 0 then [ShowPage] else [] in
                  let (ops2, e2) := draw_loop cfg mode cols rows_per_page x0 y0 (S i) rs in
                  (ops1 ++ brk ++ ops2, e2)
              end
          end
      end end end
  end.

(** [generate_labels(rows, mode)]: the canvas writes its file only at
    [c.save()], which an exception in the loop never reaches. *)
Definition generate_labels (rows : list row) (mode : string) : list event * option py_exc :=
  let cfg := config_of mode in
  let '(ops, err) := draw_loop cfg mode (grid_cols cfg) (grid_rows cfg)
                       (grid_x0 cfg) grid_y0 0 rows in
  match err with
  | None => ([ESavePdf (pdf_name mode) (doc_pages ops)], None)
  | Some e => ([], Some e)
  end.

(** Lines 237-244: filter, then either report or generate and save. *)
Definition run_core (fs : fs_t) (df : list row) (mode : string) : list event * option py_exc :=
  let '(new_rows, new_hashes) := filter_new fs df mode in
  match new_rows with
  | [] => ([EPrint "No new labels."], None)
  | _ =>
      let '(evs, err) := generate_labels new_rows mode in
      match err with
      | Some e => (evs, Some e)
      | None =>
          (evs ++ save_hashes new_hashes mode
               ++ [EPrint (String.append "Generated "
                    (String.append (str (py_int_str (Z.of_nat (List.length new_rows))))
                      (String.append " " (String.append mode " labels."))))],
           None)
      end
  end.

(** [s.endswith(".csv")] *)
Definition ends_with_csv (s : string) : bool :=
  let l := rev (chars s) in
  match l with
  | "v"%char :: "s"%char :: "c"%char :: "."%char :: _ => true
  | _ => false
  end.

(** The module-level script, given the two answers typed at the
    prompts and the file system. *)
Definition main (answer1 answer2 : string) (fs : fs_t) : list event * option py_exc :=
  let m := py_lower (py_strip (chars answer1)) in
  if negb (bool_decide (m = ["c"%char]) || bool_decide (m = ["m"%char])) then
    ([], Some (ValueError "Please enter 'c' for clippings or 'm' for magazines!"))
  else
    let mode := if bool_decide (m = ["c"%char]) then "clippings" else "magazines" in
    let csv0 := str (py_strip (chars answer2)) in
    let csv_name := if ends_with_csv csv0 then csv0 else String.append csv0 ".csv" in
    match fs !! csv_name with
    | None => ([], Some (FileNotFoundError csv_name))
    | Some contents =>
        match read_csv contents with
        | inl e => ([], Some e)
        | inr df => run_core fs df mode
        end
    end.

(** The effect of one event on the file system. *)
Definition apply_event (fs : fs_t) (e : event) : fs_t :=
  match e with
  | EPrint _ => fs
  | ETruncate p => <[p := EmptyString]> fs
  | EAppend p s =>
      match fs !! p with
      | Some t => <[p := String.append t s]> fs
      | None => <[p := s]> fs
      end
  | ESavePdf p pages => <[p := render_pdf pages]> fs
  end.

Definition apply_events (fs : fs_t) (evs : list event) : fs_t :=
  fold_left apply_event evs fs.

(** Whether an event changes the file at [p]. *)
Definition modifies (p : string) (e : event) : Prop :=
  match e with
  | EPrint _ => False
  | ETruncate q | EAppend q _ | ESavePdf q _ => q = p
  end.

End Script.

(* ================================================================= *)
(** ** Normalization *)

(** The string [norm] starts from: [""] for a missing value. *)
Definition raw (c : cell) : list ascii :=
  if pd_isna c then [] else py_str c.

Definition all_space (l : list ascii) : bool := forallb py_isspace l.

(** Two cells that are the same up to letter case, whitespace around the
    value, and a missing value standing for the empty string. *)
Definition same_modulo_case_space (c1 c2 : cell) : Prop :=
  exists l1 m1 r1 l2 m2 r2,
    raw c1 = l1 ++ m1 ++ r1 /\ raw c2 = l2 ++ m2 ++ r2 /\
    all_space l1 = true /\ all_space r1 = true /\
    all_space l2 = true /\ all_space r2 = true /\
    py_lower m1 = py_lower m2.

(** The rows used in the scenarios. *)
Definition vogue1 : row := mkRow (Text "Vogue") (Text "12") (Text "2023").
Definition vogue2 : row := mkRow (Text "vogue") (Text " 12 ") (Text "2023").

(* ================================================================= *)
(** ** Views of the layout loop used by the statements *)

Section LayoutViews.

Variable para : string -> cell -> Q -> Q -> py_exc + Q.

(** Whether both [Paragraph] calls for a row succeed under [cfg]. *)
Definition drawable (cfg : label_config) (mode : string) (r : row) : bool :=
  match snd (draw_cell para cfg mode 0 0 0 0 r) with
  | None => true
  | Some _ => false
  end.

(** The drawing calls of each record, placed at column [i mod cols] and
    row [(i / cols) mod rows_per_page]. *)
Fixpoint label_cells (cfg : label_config) (mode : string) (cols rows_per_page : nat)
    (x0 y0 : Q) (i : nat) (rows : list row) : list (list op) :=
  match rows with
  | [] => []
  | r :: rs =>
      fst (draw_cell para cfg mode x0 y0 (i mod cols) ((i / cols) mod rows_per_page) r)
      :: label_cells cfg mode cols rows_per_page x0 y0 (S i) rs
  end.

End LayoutViews.

(** The cells joined with a [showPage] after the cell of index [i]
    whenever [(i + 1) mod n = 0]. *)
Fixpoint with_breaks (n i : nat) (cs : list (list op)) : list op :=
  match cs with
  | [] => []
  | c :: cs => c ++ (if S i mod n =? 0 then [ShowPage] else []) ++ with_breaks n (S i) cs
  end.

(** Consecutive blocks of [n] elements, the last one possibly shorter. *)
Fixpoint chunk_fuel {A} (fuel n : nat) (l : list A) : list (list A) :=
  match fuel with
  | 0 => []
  | S f =>
      match l with
      | [] => []
      | _ => firstn n l :: chunk_fuel f n (skipn n l)
      end
  end.

Definition chunk {A} (n : nat) (l : list A) : list (list A) := chunk_fuel (List.length l) n l.

Definition is_break (o : op) : bool := match o with ShowPage => true | _ => false end.
Definition is_rect (o : op) : bool := match o with Rect _ _ _ _ => true | _ => false end.

(** Number of label borders drawn on a page. *)
Definition count_rects (pg : list op) : nat := List.length (List.filter is_rect pg).

(** Stand-ins for the collaborators, used to run the model on concrete
    inputs: every paragraph is 10 points high; the digest is the key. *)
Definition sample_para : string -> cell -> Q -> Q -> py_exc + Q := fun _ _ _ _ => inr 10%Q.
Definition sample_digest : string -> string := fun s => s.

(** The lines [save_hashes] writes, and the text they make. *)
Definition hash_lines (hs : gset string) : list string :=
  map (fun h => String.append h newline) (py_sorted hs).

Definition join_text (ls : list string) : string := fold_left String.append ls EmptyString.

(** A stand-in for reportlab's serialization. *)
Definition sample_render : list (list op) -> string := fun _ => EmptyString.

(** A string that [save_hashes] can write as one line and [load_hashes]
    read back unchanged: no line break (LF or CR) in it, and no
    whitespace at either end. A [hexdigest()] is such a string. *)
Definition line_clean (h : string) : bool :=
  forallb (fun c => negb (Ascii.eqb c "010"%char || Ascii.eqb c "013"%char)) (chars h) &&
  bool_decide (py_strip (chars h) = chars h).

(** No ["|"] in a normalized field. *)
Definition no_bar (l : list ascii) : bool := forallb (fun c => negb (Ascii.eqb c "|"%char)) l.

(** Whether a rectangle [c.rect(x, y, w, h)] lies inside the page
    margins. *)
Definition rect_inside (x y w h : Q) : bool :=
  Qle_bool page_margin_left x && Qle_bool (x + w) (A4_width - page_margin_right) &&
  Qle_bool page_margin_bottom y && Qle_bool (y + h) (A4_height - page_margin_top).

(** Every border the grid of [cfg] can hold, checked cell by cell. *)
Definition grid_inside (cfg : label_config) : bool :=
  forallb (fun col =>
    forallb (fun row_i =>
      rect_inside (grid_x0 cfg + inject_nat col * label_w cfg)
                  (grid_y0 - inject_nat row_i * label_h cfg - label_h cfg)
                  (label_w cfg) (label_h cfg))
      (seq 0 (grid_rows cfg)))
    (seq 0 (grid_cols cfg)).

(** More stand-ins: a CSV reader returning the two scenario rows, and a
    digest with a fixed hexadecimal value. *)
Definition sample_csv : string -> py_exc + list row := fun _ => inr [vogue1; vogue2].
Definition sample_hex : string -> string := fun _ => "00".


(* ================================================================= *)
(** * Proofs *)

Lemma norm_raw c : norm c = py_strip (py_lower (raw c)).
Proof. destruct c; reflexivity. Qed.

Lemma lower_char_space c : py_isspace c = true -> py_lower_char c = c.
Proof.
  destruct c as [[] [] [] [] [] [] [] []]; vm_compute; congruence.
Qed.

Lemma lower_app a b : py_lower (a ++ b) = py_lower a ++ py_lower b.
Proof. apply map_app. Qed.

Lemma lower_all_space l : all_space l = true -> py_lower l = l.
Proof.
  induction l as [|c l IH]; cbn; [done|]. intros [Hc Hl]%andb_prop.
  rewrite lower_char_space by done. f_equal. exact (IH Hl).
Qed.

Lemma lstrip_space_app l m : all_space l = true -> py_lstrip (l ++ m) = py_lstrip m.
Proof.
  induction l as [|c l IH]; cbn; [done|]. intros [Hc Hl]%andb_prop.
  rewrite Hc. exact (IH Hl).
Qed.

Lemma all_space_rev l : all_space l = true -> all_space (rev l) = true.
Proof.
  unfold all_space. rewrite !forallb_forall. intros H x Hx. apply H, in_rev, Hx.
Qed.

Lemma rstrip_app_space m r : all_space r = true -> py_rstrip (m ++ r) = py_rstrip m.
Proof.
  intros Hr. unfold py_rstrip. rewrite rev_app_distr, lstrip_space_app; [done|].
  by apply all_space_rev.
Qed.

Lemma strip_app_space m r : all_space r = true -> py_strip (m ++ r) = py_strip m.
Proof.
  intros Hr. unfold py_strip. induction m as [|a m IH]; cbn.
  - rewrite <- (app_nil_r r), lstrip_space_app by done. reflexivity.
  - destruct (py_isspace a); [exact IH|].
    change (a :: m ++ r) with ((a :: m) ++ r). by apply rstrip_app_space.
Qed.

Lemma strip_surrounded l m r :
  all_space l = true -> all_space r = true -> py_strip (l ++ m ++ r) = py_strip m.
Proof.
  intros Hl Hr. unfold py_strip at 1. rewrite lstrip_space_app by done.
  fold (py_strip (m ++ r)). by apply strip_app_space.
Qed.

Lemma norm_same c1 c2 : same_modulo_case_space c1 c2 -> norm c1 = norm c2.
Proof.
  intros (l1 & m1 & r1 & l2 & m2 & r2 & E1 & E2 & Hl1 & Hr1 & Hl2 & Hr2 & Hm).
  rewrite !norm_raw, E1, E2, !lower_app.
  rewrite (lower_all_space l1), (lower_all_space r1), (lower_all_space l2),
    (lower_all_space r2) by done.
  rewrite (strip_surrounded l1), (strip_surrounded l2) by done. by rewrite Hm.
Qed.

(* ================================================================= *)
(** ** The filtering loop *)

Section Dedup.

Variable sha256_hex : string -> string.
Local Abbreviation hash := (hash_row sha256_hex).

Lemma filter_loop_fst known rows nr nh :
  fst (filter_loop sha256_hex known rows nr nh)
  = nr ++ filter (fun r => hash r ∉ known) rows.
Proof.
  revert nr nh. induction rows as [|r rs IH]; intros nr nh.
  - cbn. by rewrite app_nil_r.
  - rewrite filter_cons. cbn [filter_loop]. destruct (decide (hash r ∉ known)).
    + rewrite IH, <- app_assoc. reflexivity.
    + apply IH.
Qed.

Lemma filter_loop_snd known rows nr nh :
  known ⊆ nh ->
  snd (filter_loop sha256_hex known rows nr nh)
  = nh ∪ list_to_set (map hash rows).
Proof.
  revert nr nh. induction rows as [|r rs IH]; intros nr nh Hk; cbn.
  - set_solver.
  - destruct (decide (hash r ∉ known)) as [Hn|Hin].
    + rewrite IH by set_solver. set_solver.
    + rewrite IH by done. apply dec_stable in Hin. set_solver.
Qed.

Lemma filter_new_fst fs df mode :
  fst (filter_new sha256_hex fs df mode)
  = filter (fun r => hash r ∉ load_hashes fs mode) df.
Proof. unfold filter_new. by rewrite filter_loop_fst. Qed.

Lemma filter_new_snd fs df mode :
  snd (filter_new sha256_hex fs df mode)
  = load_hashes fs mode ∪ list_to_set (map hash df).
Proof. unfold filter_new. by rewrite filter_loop_snd. Qed.

End Dedup.

Lemma filter_not_in_empty (sha256_hex : string -> string) (known : gset string)
    (df : list row) :
  known = ∅ -> filter (fun r => hash_row sha256_hex r ∉ known) df = df.
Proof.
  intros ->. induction df as [|r df IH]; [done|].
  rewrite filter_cons_True by set_solver. by rewrite IH.
Qed.

(** C1 (code_bug). With no prior hash file, the two rows
    [("Vogue","12","2023")] and [("vogue"," 12 ","2023")] have the same
    content hash, yet [filter_new] returns both of them as new: the loop
    tests [h not in known], the prior set, and never the running set
    [new_hashes]. *)
Theorem filter_new_keeps_batch_duplicates (sha256_hex : string -> string) :
  hash_row sha256_hex vogue1 = hash_row sha256_hex vogue2 /\
  fst (filter_new sha256_hex ∅ [vogue1; vogue2] "clippings") = [vogue1; vogue2].
Proof.
  split; [reflexivity|].
  rewrite filter_new_fst.
  apply filter_not_in_empty. reflexivity.
Qed.

(** C2 (corrected). Two rows whose Magazine, Edition and Year cells are
    pairwise the same up to letter case, whitespace around the value, and
    a missing value versus the empty string have the same canonical key
    and hence the same content hash. *)
Theorem canonical_key_modulo_case_space (sha256_hex : string -> string) (r1 r2 : row) :
  same_modulo_case_space (Magazine r1) (Magazine r2) ->
  same_modulo_case_space (Edition r1) (Edition r2) ->
  same_modulo_case_space (Year r1) (Year r2) ->
  row_to_string r1 = row_to_string r2 /\ hash_row sha256_hex r1 = hash_row sha256_hex r2.
Proof.
  intros HM HE HY.
  assert (Hk : row_to_string r1 = row_to_string r2).
  { unfold row_to_string. by rewrite (norm_same _ _ HM), (norm_same _ _ HE), (norm_same _ _ HY). }
  split; [exact Hk|]. unfold hash_row. by rewrite Hk.
Qed.

(** C2 counterexample: numeric formatting is not normalized. The year
    [2023] read as an int and as a float ([2023.0], as pandas reads an
    integer column that has a blank cell) give different keys. *)
Lemma canonical_key_numeric_formatting_cex :
  row_to_string (mkRow (Text "Vogue") (Int 12) (Int 2023))
  <> row_to_string (mkRow (Text "Vogue") (Int 12) (FloatI 2023)).
Proof. vm_compute. discriminate. Qed.

(** C8. The rows returned by [filter_new] are exactly the input rows
    whose hash is not in the prior set, in input order; so they form a
    sublist of the input. *)
Theorem filter_new_preserves_order (sha256_hex : string -> string)
    (fs : fs_t) (df : list row) (mode : string) :
  fst (filter_new sha256_hex fs df mode)
    = filter (fun r => hash_row sha256_hex r ∉ load_hashes fs mode) df /\
  fst (filter_new sha256_hex fs df mode) `sublist_of` df.
Proof.
  rewrite filter_new_fst. split; [done|]. apply sublist_filter.
Qed.

(** C9. With no hash file for the mode, [load_hashes] returns the empty
    set, and [filter_new] returns every input row with the set of all
    their hashes. *)
Theorem load_hashes_absent_file (sha256_hex : string -> string)
    (fs : fs_t) (df : list row) (mode : string) :
  fs !! hash_file_for_mode mode = None ->
  load_hashes fs mode = ∅ /\
  filter_new sha256_hex fs df mode = (df, list_to_set (map (hash_row sha256_hex) df)).
Proof.
  intros Hnone.
  assert (Hl : load_hashes fs mode = ∅) by (unfold load_hashes; by rewrite Hnone).
  split; [exact Hl|].
  rewrite (surjective_pairing (filter_new sha256_hex fs df mode)).
  rewrite filter_new_fst, filter_new_snd, filter_not_in_empty by done.
  rewrite Hl. f_equal. set_solver.
Qed.

(** C10. The hash set returned by [filter_new] is the prior set united
    with the hashes of all input rows; the prior set is contained in it. *)
Theorem filter_new_seen_set_union (sha256_hex : string -> string)
    (fs : fs_t) (df : list row) (mode : string) :
  snd (filter_new sha256_hex fs df mode)
    = load_hashes fs mode ∪ list_to_set (map (hash_row sha256_hex) df) /\
  load_hashes fs mode ⊆ snd (filter_new sha256_hex fs df mode).
Proof.
  rewrite filter_new_snd. split; [done|]. set_solver.
Qed.

(* ================================================================= *)
(** ** The layout loop *)

Section LayoutProofs.

Variable para : string -> cell -> Q -> Q -> py_exc + Q.

Definition no_break (l : list op) : bool := forallb (fun o => negb (is_break o)) l.

Lemma draw_cell_err_indep cfg mode x0 y0 col row_i r :
  snd (draw_cell para cfg mode x0 y0 col row_i r) = snd (draw_cell para cfg mode 0 0 0 0 r).
Proof.
  unfold draw_cell. cbv zeta.
  destruct (para _ _ _ _); [|destruct (para _ _ _ _)]; reflexivity.
Qed.

Lemma draw_cell_shape cfg mode x0 y0 col row_i r :
  snd (draw_cell para cfg mode x0 y0 col row_i r) = None ->
  List.length (fst (draw_cell para cfg mode x0 y0 col row_i r)) = 5 /\
  no_break (fst (draw_cell para cfg mode x0 y0 col row_i r)) = true /\
  count_rects (fst (draw_cell para cfg mode x0 y0 col row_i r)) = 1.
Proof.
  unfold draw_cell. cbv zeta.
  destruct (para _ _ _ _); [|destruct (para _ _ _ _)]; cbn; try discriminate; auto.
Qed.

Lemma draw_loop_ok cfg mode cols rpp x0 y0 i rows :
  0 < cols -> 0 < rpp -> forallb (drawable para cfg mode) rows = true ->
  draw_loop para cfg mode cols rpp x0 y0 i rows
  = (with_breaks (cols * rpp) i (label_cells para cfg mode cols rpp x0 y0 i rows), None).
Proof.
  intros Hc Hr. revert i. induction rows as [|r rs IH]; intros i Hd; [done|].
  cbn in Hd. apply andb_prop in Hd as [Hd1 Hd2].
  cbn [draw_loop label_cells with_breaks]. unfold py_mod, py_div.
  assert (Hc' : (cols =? 0) = false) by (apply Nat.eqb_neq; lia).
  assert (Hr' : (rpp =? 0) = false) by (apply Nat.eqb_neq; lia).
  assert (Hcr : (cols * rpp =? 0) = false) by (apply Nat.eqb_neq; nia).
  rewrite Hc', Hr', Hcr.
  assert (He : snd (draw_cell para cfg mode x0 y0 (i mod cols) ((i / cols) mod rpp) r) = None).
  { rewrite draw_cell_err_indep. unfold drawable in Hd1.
    destruct (snd (draw_cell para cfg mode 0 0 0 0 r)); [discriminate|done]. }
  destruct (draw_cell para cfg mode x0 y0 (i mod cols) ((i / cols) mod rpp) r) as [ops1 e1].
  cbn in He. subst e1. rewrite (IH (S i) Hd2). reflexivity.
Qed.

Lemma pages_acc_app cur ops t :
  no_break ops = true -> pages_acc cur (ops ++ t) = pages_acc (cur ++ ops) t.
Proof.
  revert cur. induction ops as [|o ops IH]; intros cur Hn; cbn.
  - by rewrite app_nil_r.
  - cbn in Hn. apply andb_prop in Hn as [Ho Hn].
    destruct o; cbn in Ho; try discriminate; rewrite IH by done; by rewrite <- app_assoc.
Qed.

Lemma no_break_concat cs : Forall (fun c => no_break c = true) cs -> no_break (List.concat cs) = true.
Proof.
  induction 1 as [|c cs Hc _ IH]; [done|]. cbn. unfold no_break in *.
  rewrite forallb_app, Hc. exact IH.
Qed.

Lemma with_breaks_app n i cs1 cs2 :
  with_breaks n i (cs1 ++ cs2) = with_breaks n i cs1 ++ with_breaks n (i + List.length cs1) cs2.
Proof.
  revert i. induction cs1 as [|c cs1 IH]; intros i; cbn.
  - by rewrite Nat.add_0_r.
  - rewrite IH, <- !app_assoc. do 3 f_equal. f_equal. lia.
Qed.

Lemma with_breaks_no_break n i cs :
  (forall j, j < List.length cs -> S (i + j) mod n <> 0) -> with_breaks n i cs = List.concat cs.
Proof.
  revert i. induction cs as [|c cs IH]; intros i H; [done|]. cbn.
  assert (H0 : S i mod n <> 0) by (rewrite <- (Nat.add_0_r i); apply H; cbn; lia).
  apply Nat.eqb_neq in H0. rewrite H0. cbn. f_equal. apply IH.
  intros j Hj. replace (S (S i + j)) with (S (i + S j)) by lia. apply H. cbn. lia.
Qed.

Lemma mod_shift n p j : 0 < n -> S (p * n + j) mod n = S j mod n.
Proof.
  intros Hn. replace (S (p * n + j)) with (S j + p * n) by lia. apply Nat.Div0.mod_add.
Qed.

Lemma with_breaks_block n p cs :
  0 < n -> List.length cs = n -> with_breaks n (p * n) cs = List.concat cs ++ [ShowPage].
Proof.
  intros Hn Hl. destruct (exists_last (l := cs)) as [cs' [c Hcs]]; [intros ->; cbn in Hl; lia|].
  subst cs. rewrite length_app in Hl. cbn in Hl.
  rewrite with_breaks_app, concat_app. cbn.
  rewrite with_breaks_no_break.
  - replace (S (p * n + List.length cs')) with ((S p) * n) by lia.
    rewrite Nat.Div0.mod_mul. cbn. by rewrite !app_nil_r, <- app_assoc.
  - intros j Hj. rewrite mod_shift, Nat.mod_small by lia. lia.
Qed.

Lemma with_breaks_tail n p cs :
  List.length cs < n -> with_breaks n (p * n) cs = List.concat cs.
Proof.
  intros Hl. apply with_breaks_no_break. intros j Hj.
  rewrite mod_shift, Nat.mod_small by lia. lia.
Qed.

Definition good_cell (c : list op) : Prop := c <> [] /\ no_break c = true.

Lemma pages_with_breaks n cs f p :
  0 < n -> Forall good_cell cs -> List.length cs <= f ->
  pages_acc [] (with_breaks n (p * n) cs) = map (@List.concat op) (chunk_fuel f n cs).
Proof.
  intros Hn. revert cs p. induction f as [|f IH]; intros cs p Hg Hl.
  { destruct cs; cbn in Hl; [done|lia]. }
  destruct cs as [|c cs0]; [done|]. set (cs := c :: cs0).
  change (chunk_fuel (S f) n cs) with (firstn n cs :: chunk_fuel f n (skipn n cs)).
  destruct (Nat.le_gt_cases n (List.length cs)) as [Hge|Hlt].
  - rewrite <- (firstn_skipn n cs) at 1. rewrite with_breaks_app.
    rewrite length_firstn, Nat.min_l by done.
    rewrite with_breaks_block by (try rewrite length_firstn; lia).
    rewrite <- app_assoc. cbn [app].
    rewrite pages_acc_app.
    2:{ apply no_break_concat. apply Forall_take.
        eapply Forall_impl; [exact Hg|]. by intros ? [_ ?]. }
    cbn. f_equal.
    replace (p * n + n) with (S p * n) by lia. apply IH.
    + by apply Forall_drop.
    + rewrite length_skipn. cbn in Hl |- *. lia.
  - rewrite with_breaks_tail by done.
    assert (Hne : List.concat cs <> []).
    { inversion Hg as [|? ? [Hc _] _]. subst cs. cbn. intros E.
      apply app_eq_nil in E as [? _]. done. }
    rewrite <- (app_nil_r (List.concat cs)) at 1. rewrite pages_acc_app.
    2:{ apply no_break_concat. eapply Forall_impl; [exact Hg|]. by intros ? [_ ?]. }
    rewrite firstn_all2, skipn_all2 by lia.
    assert (Hf : chunk_fuel f n ([] : list (list op)) = []) by (destruct f; done).
    rewrite Hf. cbn [app pages_acc map].
    destruct (List.concat cs) eqn:E; [contradiction|reflexivity].
Qed.

Lemma chunk_fuel_nth {A} n (cs : list A) f p :
  0 < n -> List.length cs <= f -> p * n < List.length cs ->
  nth_error (chunk_fuel f n cs) p = Some (firstn n (skipn (p * n) cs)).
Proof.
  intros Hn. revert cs f. induction p as [|p IH]; intros cs f Hl Hp.
  - destruct f; [lia|]. destruct cs; cbn in *; [lia|done].
  - destruct f; [lia|]. destruct cs as [|c cs0]; [cbn in *; lia|].
    change (chunk_fuel (S f) n (c :: cs0))
      with (firstn n (c :: cs0) :: chunk_fuel f n (skipn n (c :: cs0))).
    cbn [nth_error]. rewrite IH.
    + rewrite skipn_skipn. do 3 f_equal. lia.
    + rewrite length_skipn. cbn in *. lia.
    + rewrite length_skipn. cbn in *. lia.
Qed.

Lemma chunk_fuel_length {A} n (cs : list A) f :
  0 < n -> List.length cs <= f ->
  List.length (chunk_fuel f n cs) = (List.length cs + n - 1) / n.
Proof.
  intros Hn. revert cs. induction f as [|f IH]; intros cs Hl.
  { destruct cs; cbn in *; [|lia]. symmetry. apply Nat.div_small. lia. }
  destruct cs as [|c cs0].
  { cbn. symmetry. apply Nat.div_small. lia. }
  set (cs := c :: cs0).
  change (chunk_fuel (S f) n cs) with (firstn n cs :: chunk_fuel f n (skipn n cs)).
  cbn [List.length]. rewrite IH by (rewrite length_skipn; cbn in *; lia).
  rewrite length_skipn.
  assert (Hc : 0 < List.length cs) by (cbn; lia).
  destruct (Nat.le_gt_cases n (List.length cs)) as [Hge|Hlt].
  - replace (List.length cs + n - 1) with ((List.length cs - n + n - 1) + 1 * n) by lia.
    rewrite Nat.div_add by lia. lia.
  - replace (List.length cs - n + n - 1) with (n - 1) by lia.
    rewrite Nat.div_small by lia.
    apply (Nat.div_unique _ _ _ (List.length cs - 1)); lia.
Qed.

Lemma chunk_fuel_nonempty n cs f :
  0 < n -> Forall good_cell cs -> Forall (fun pg => pg <> []) (map (@List.concat op) (chunk_fuel f n cs)).
Proof.
  intros Hn. revert cs. induction f as [|f IH]; intros cs Hg; [constructor|].
  destruct cs as [|c cs0]; [constructor|].
  change (chunk_fuel (S f) n (c :: cs0))
    with (firstn n (c :: cs0) :: chunk_fuel f n (skipn n (c :: cs0))).
  cbn [map]. constructor.
  - destruct n as [|n']; [lia|]. cbn.
    inversion Hg as [|? ? [Hc _] _]. subst. destruct c; [done|]. discriminate.
  - apply IH. by apply Forall_drop.
Qed.

Lemma concat_length_uniform (cs : list (list op)) k :
  Forall (fun c => List.length c = k) cs -> List.length (List.concat cs) = k * List.length cs.
Proof.
  induction 1 as [|c cs Hc _ IH]; cbn; [lia|]. rewrite length_app, IH, Hc. lia.
Qed.

Lemma count_rects_concat (cs : list (list op)) :
  Forall (fun c => count_rects c = 1) cs -> count_rects (List.concat cs) = List.length cs.
Proof.
  induction 1 as [|c cs Hc _ IH]; [done|]. cbn. unfold count_rects in *.
  rewrite List.filter_app, length_app, Hc, IH. reflexivity.
Qed.

Definition cell_ok (c : list op) : Prop :=
  good_cell c /\ List.length c = 5 /\ count_rects c = 1.

Lemma label_cells_ok cfg mode cols rpp x0 y0 k rows :
  forallb (drawable para cfg mode) rows = true ->
  Forall cell_ok (label_cells para cfg mode cols rpp x0 y0 k rows).
Proof.
  revert k. induction rows as [|r rs IH]; intros k Hd; cbn; [constructor|].
  apply andb_prop in Hd as [Hd1 Hd2]. constructor; [|by apply IH].
  assert (He : snd (draw_cell para cfg mode x0 y0 (k mod cols) ((k / cols) mod rpp) r) = None).
  { rewrite draw_cell_err_indep. unfold drawable in Hd1.
    destruct (snd (draw_cell para cfg mode 0 0 0 0 r)); [discriminate|done]. }
  destruct (draw_cell_shape _ _ _ _ _ _ _ He) as (Hl & Hb & Hr).
  repeat split; try done. intros E. rewrite E in Hl. discriminate.
Qed.

Lemma label_cells_length cfg mode cols rpp x0 y0 k rows :
  List.length (label_cells para cfg mode cols rpp x0 y0 k rows) = List.length rows.
Proof. revert k. induction rows; intros k; cbn; auto. Qed.

Lemma label_cells_nth cfg mode cols rpp x0 y0 k rows j r :
  nth_error rows j = Some r ->
  nth_error (label_cells para cfg mode cols rpp x0 y0 k rows) j
  = Some (fst (draw_cell para cfg mode x0 y0 ((k + j) mod cols) (((k + j) / cols) mod rpp) r)).
Proof.
  revert k j. induction rows as [|r0 rs IH]; intros k j Hj; [by destruct j|].
  destruct j as [|j]; cbn in Hj |- *.
  - injection Hj as ->. by rewrite Nat.add_0_r.
  - rewrite (IH (S k) j Hj). by replace (S k + j) with (k + S j) by lia.
Qed.

(** The trace of the loop and the pages of the saved document, when the
    grid is non-empty and every paragraph can be drawn. *)
Lemma draw_loop_pages cfg mode cols rpp x0 y0 rows :
  0 < cols -> 0 < rpp -> forallb (drawable para cfg mode) rows = true ->
  let cs := label_cells para cfg mode cols rpp x0 y0 0 rows in
  draw_loop para cfg mode cols rpp x0 y0 0 rows = (with_breaks (cols * rpp) 0 cs, None) /\
  doc_pages (with_breaks (cols * rpp) 0 cs) = map (@List.concat op) (chunk (cols * rpp) cs).
Proof.
  intros Hc Hr Hd cs. split; [by apply draw_loop_ok|].
  unfold doc_pages, chunk. change 0 with (0 * (cols * rpp)) at 1.
  apply pages_with_breaks; [nia| |done].
  eapply Forall_impl; [apply label_cells_ok, Hd|]. by intros ? [? _].
Qed.

(** Where record [i] lands in the pages of [chunk n cs]. *)
Lemma chunk_position n (cs : list (list op)) i c :
  0 < n -> Forall cell_ok cs -> nth_error cs i = Some c ->
  exists pre post,
    nth_error (map (@List.concat op) (chunk n cs)) (i / n) = Some (pre ++ c ++ post) /\
    List.length pre = 5 * (i mod n) /\
    List.length (pre ++ c ++ post) = 5 * List.length (firstn n (skipn (i / n * n) cs)).
Proof.
  intros Hn Hok Hi.
  assert (Hlt : i < List.length cs) by (apply nth_error_Some; congruence).
  pose proof (Nat.div_mod_eq i n) as Hdm.
  assert (Hm : i mod n < n) by (apply Nat.mod_upper_bound; lia).
  unfold chunk. rewrite nth_error_map, chunk_fuel_nth; [|lia|lia|nia].
  set (L := skipn (i / n * n) cs).
  assert (HL : nth_error (firstn n L) (i mod n) = Some c).
  { rewrite nth_error_firstn. apply Nat.ltb_lt in Hm. rewrite Hm.
    unfold L. rewrite nth_error_skipn. rewrite <- Hi. f_equal. lia. }
  destruct (nth_error_split _ _ HL) as (l1 & l2 & Hsplit & Hl1).
  assert (Hok' : Forall cell_ok (firstn n L)) by (apply Forall_take, Forall_drop, Hok).
  rewrite Hsplit in Hok' |- *. apply Forall_app in Hok' as [Hok1 Hok2].
  assert (H5 : Forall (fun c => List.length c = 5) (l1 ++ c :: l2)).
  { apply Forall_app. split.
    - eapply Forall_impl; [exact Hok1|]. by intros ? (_ & ? & _).
    - eapply Forall_impl; [exact Hok2|]. by intros ? (_ & ? & _). }
  apply Forall_app in H5 as [H5a H5b]. inversion H5b as [|? ? Hc H5c]. subst.
  exists (List.concat l1), (List.concat l2).
  cbn [option_map]. rewrite concat_app. cbn [List.concat]. split; [done|].
  rewrite !length_app, !(concat_length_uniform _ 5), Hc by done. cbn [List.length]. lia.
Qed.

Lemma cell_ok_nth (cs : list (list op)) i c :
  Forall cell_ok cs -> nth_error cs i = Some c -> List.length c = 5.
Proof.
  intros H Hi. apply nth_error_In in Hi.
  destruct (proj1 (List.Forall_forall _ _) H c Hi) as (_ & ? & _). done.
Qed.

Lemma count_rects_cells (cs : list (list op)) :
  Forall cell_ok cs -> count_rects (List.concat cs) = List.length cs.
Proof.
  intros H. apply count_rects_concat. eapply Forall_impl; [exact H|]. by intros ? (_ & _ & ?).
Qed.

(** C3. With a non-empty grid and every paragraph drawable, record [i]
    is drawn at column [i mod cols] and row [(i / cols) mod rows_per_page]
    (its five drawing calls start at offset [5 * (i mod (cols *
    rows_per_page))]) on page [i / (cols * rows_per_page)] of the saved
    document. For [cols = 3], [rows_per_page = 8] and 25 records there are
    two pages holding 24 and 1 labels; record 23 is the last label of the
    first page, at column 2, row 7, and record 24 is the whole second page,
    at column 0, row 0. *)
Theorem draw_loop_grid_placement cfg mode cols rpp x0 y0 rows :
  0 < cols -> 0 < rpp -> forallb (drawable para cfg mode) rows = true ->
  let pages := doc_pages (fst (draw_loop para cfg mode cols rpp x0 y0 0 rows)) in
  snd (draw_loop para cfg mode cols rpp x0 y0 0 rows) = None /\
  (forall i r, nth_error rows i = Some r ->
     exists pre post,
       nth_error pages (i / (cols * rpp))
         = Some (pre ++ fst (draw_cell para cfg mode x0 y0 (i mod cols) ((i / cols) mod rpp) r)
                     ++ post) /\
       List.length pre = 5 * (i mod (cols * rpp))) /\
  (cols = 3 -> rpp = 8 -> List.length rows = 25 ->
     (exists pg1 pg2, pages = [pg1; pg2] /\ count_rects pg1 = 24 /\ count_rects pg2 = 1) /\
     (forall r23, nth_error rows 23 = Some r23 ->
        exists pre, nth_error pages 0 = Some (pre ++ fst (draw_cell para cfg mode x0 y0 2 7 r23))) /\
     (forall r24, nth_error rows 24 = Some r24 ->
        nth_error pages 1 = Some (fst (draw_cell para cfg mode x0 y0 0 0 r24)))).
Proof.
  intros Hc Hr Hd pages.
  destruct (draw_loop_pages cfg mode cols rpp x0 y0 rows Hc Hr Hd) as [Hloop Hpages].
  unfold pages. rewrite Hloop. cbn [fst snd]. rewrite Hpages.
  set (cs := label_cells para cfg mode cols rpp x0 y0 0 rows).
  assert (Hok : Forall cell_ok cs) by apply label_cells_ok, Hd.
  assert (Hlen : List.length cs = List.length rows) by apply label_cells_length.
  assert (Hnth : forall i r, nth_error rows i = Some r ->
            nth_error cs i = Some (fst (draw_cell para cfg mode x0 y0 (i mod cols) ((i / cols) mod rpp) r)))
    by (intros i r Hi; exact (label_cells_nth cfg mode cols rpp x0 y0 0 rows i r Hi)).
  split; [done|]. split.
  { intros i r Hi.
    destruct (chunk_position (cols * rpp) cs i _ ltac:(nia) Hok (Hnth i r Hi)) as (pre & post & E & Hpre & _).
    by exists pre, post. }
  intros -> -> H25. rewrite H25 in Hlen.
  change (3 * 8) with 24.
  assert (Hp : List.length (chunk 24 cs) = 2)
    by (unfold chunk; rewrite chunk_fuel_length, Hlen by lia; reflexivity).
  assert (H0 : nth_error (chunk 24 cs) 0 = Some (firstn 24 (skipn 0 cs)))
    by (unfold chunk; apply chunk_fuel_nth; lia).
  assert (H1 : nth_error (chunk 24 cs) 1 = Some (firstn 24 (skipn 24 cs)))
    by (unfold chunk; apply chunk_fuel_nth; lia).
  split; [|split].
  - destruct (chunk 24 cs) as [|k1 [|k2 [|k3 ks]]]; cbn in Hp; try lia.
    cbn in H0, H1. injection H0 as ->. injection H1 as ->.
    exists (List.concat (firstn 24 (skipn 0 cs))), (List.concat (firstn 24 (skipn 24 cs))).
    split; [done|].
    rewrite !count_rects_cells by (apply Forall_take, Forall_drop, Hok).
    rewrite !length_firstn, !length_skipn. lia.
  - intros r23 H23.
    destruct (chunk_position 24 cs 23 _ ltac:(lia) Hok (Hnth 23 r23 H23)) as (pre & post & E & Hpre & Htot).
    change (23 / 24) with 0 in E. change (23 / 24 * 24) with 0 in Htot.
    rewrite drop_0, length_firstn, Hlen in Htot.
    change (23 mod 3) with 2 in E, Htot. change ((23 / 3) mod 8) with 7 in E, Htot.
    rewrite !length_app in Htot.
    assert (Hc5 : List.length (fst (draw_cell para cfg mode x0 y0 2 7 r23)) = 5).
    { apply (cell_ok_nth _ _ _ Hok (Hnth 23 r23 H23)). }
    rewrite Hc5 in Htot. change (23 mod 24) with 23 in Hpre.
    destruct post; [|cbn [List.length] in Htot; lia].
    exists pre. rewrite app_nil_r in E. exact E.
  - intros r24 H24.
    destruct (chunk_position 24 cs 24 _ ltac:(lia) Hok (Hnth 24 r24 H24)) as (pre & post & E & Hpre & Htot).
    change (24 / 24) with 1 in E. change (24 mod 24) with 0 in Hpre.
    change (24 / 24 * 24) with 24 in Htot. rewrite length_firstn, length_skipn, Hlen in Htot.
    change (24 mod 3) with 0 in E, Htot. change ((24 / 3) mod 8) with 0 in E, Htot.
    rewrite !length_app in Htot.
    assert (Hc5 : List.length (fst (draw_cell para cfg mode x0 y0 0 0 r24)) = 5).
    { apply (cell_ok_nth _ _ _ Hok (Hnth 24 r24 H24)). }
    rewrite Hc5 in Htot.
    destruct pre; [|cbn [List.length] in Hpre; lia].
    destruct post; [|cbn [List.length app] in Htot; lia].
    rewrite app_nil_r in E. exact E.
Qed.

(** C4 (corrected). With a non-empty grid of [n = cols * rows_per_page]
    cells and every paragraph drawable, the loop calls [showPage] right
    after the label of record [k] exactly when [(k + 1) mod n = 0], also
    after the last record; the saved document is the records cut into
    blocks of [n], one page per block: [ceil(len / n)] pages, none of them
    empty, so no trailing empty page. *)
Theorem draw_loop_page_breaks cfg mode cols rpp x0 y0 rows :
  0 < cols -> 0 < rpp -> forallb (drawable para cfg mode) rows = true ->
  let cs := label_cells para cfg mode cols rpp x0 y0 0 rows in
  let pages := doc_pages (fst (draw_loop para cfg mode cols rpp x0 y0 0 rows)) in
  fst (draw_loop para cfg mode cols rpp x0 y0 0 rows) = with_breaks (cols * rpp) 0 cs /\
  pages = map (@List.concat op) (chunk (cols * rpp) cs) /\
  List.length pages = (List.length rows + cols * rpp - 1) / (cols * rpp) /\
  Forall (fun pg => pg <> []) pages.
Proof.
  intros Hc Hr Hd cs pages.
  destruct (draw_loop_pages cfg mode cols rpp x0 y0 rows Hc Hr Hd) as [Hloop Hpages].
  unfold pages. rewrite Hloop. cbn [fst]. fold cs in Hpages |- *. rewrite Hpages.
  split; [done|]. split; [done|]. split.
  - rewrite length_map. unfold chunk. rewrite chunk_fuel_length by nia.
    unfold cs. by rewrite label_cells_length.
  - apply chunk_fuel_nonempty; [nia|].
    eapply Forall_impl; [apply label_cells_ok, Hd|]. by intros ? [? _].
Qed.


End LayoutProofs.

(* ================================================================= *)
(** ** Orchestration and persistence *)

Section RunProofs.

Variable sha256_hex : string -> string.
Variable para : string -> cell -> Q -> Q -> py_exc + Q.
Variable read_csv : string -> py_exc + list row.
Variable render_pdf : list (list op) -> string.

Lemma generate_labels_shape rows mode :
  (exists pages, generate_labels para rows mode = ([ESavePdf (pdf_name mode) pages], None)) \/
  (exists e, generate_labels para rows mode = ([], Some e)).
Proof.
  unfold generate_labels.
  destruct (draw_loop para _ _ _ _ _ _ _ rows) as [ops [e|]]; [right|left]; eauto.
Qed.

Lemma pdf_name_not_hash_file mode m : pdf_name mode <> hash_file_for_mode m.
Proof. unfold pdf_name, hash_file_for_mode. cbn. discriminate. Qed.

Lemma apply_events_app fs evs1 evs2 :
  apply_events render_pdf fs (evs1 ++ evs2)
  = apply_events render_pdf (apply_events render_pdf fs evs1) evs2.
Proof. unfold apply_events. apply fold_left_app. Qed.

Lemma apply_appends fs p ls t :
  fs !! p = Some t ->
  apply_events render_pdf fs (map (EAppend p) ls) !! p = Some (fold_left String.append ls t).
Proof.
  revert fs t. induction ls as [|l ls IH]; intros fs t Ht; [done|].
  cbn. unfold apply_events in IH. apply IH. cbn. rewrite Ht. apply lookup_insert_eq.
Qed.

(** C5. Every run of the script either stops before writing anything, or
    is [run_core] for its mode and data frame; there, with no new rows
    only "No new labels." is printed and the disk is unchanged, and any
    write to a seen-set file comes after [c.save()] wrote the document,
    which happens only when [generate_labels] finished on all new rows. *)
Theorem seen_set_written_after_labels answer1 answer2 fs :
  let evs := fst (main sha256_hex para read_csv answer1 answer2 fs) in
  evs = [] \/
  exists mode df,
    main sha256_hex para read_csv answer1 answer2 fs = run_core sha256_hex para fs df mode /\
    (fst (filter_new sha256_hex fs df mode) = [] ->
       evs = [EPrint "No new labels."] /\ apply_events render_pdf fs evs = fs) /\
    (forall m pre e post, evs = pre ++ e :: post -> modifies (hash_file_for_mode m) e ->
       exists pages,
         generate_labels para (fst (filter_new sha256_hex fs df mode)) mode
           = ([ESavePdf (pdf_name mode) pages], None) /\
         In (ESavePdf (pdf_name mode) pages) pre).
Proof.
  intros evs. unfold evs, main.
  destruct (negb _); [by left|].
  destruct (fs !! _) as [contents|]; [|by left].
  destruct (read_csv contents) as [e|df]; [by left|].
  set (mode := if bool_decide (py_lower (py_strip (chars answer1)) = ["c"%char])
                then "clippings" else "magazines").
  right. exists mode, df. split; [reflexivity|].
  unfold run_core.
  destruct (filter_new sha256_hex fs df _) as [new_rows new_hashes] eqn:Ef. cbn [fst].
  split.
  { intros ->. split; reflexivity. }
  intros m pre e post Hevs Hm.
  destruct new_rows as [|r rs].
  { destruct pre as [|? [|]]; cbn in Hevs; injection Hevs as <- ?; [done|discriminate..]. }
  destruct (generate_labels_shape (r :: rs) mode)
    as [[pages Eg]|[ex Eg]]; rewrite Eg in Hevs |- *.
  - exists pages. split; [done|].
    destruct pre as [|e0 pre]; cbn in Hevs.
    + injection Hevs as <- _. cbn in Hm. exfalso. by apply (pdf_name_not_hash_file mode m).
    + injection Hevs as <- _. by left.
  - destruct pre; discriminate.
Qed.

(** C6 (corrected). [save_hashes] rewrites the file in place: after the
    first [k + 1] of its steps ([open(path, "w")], then one write per
    hash) the file holds exactly the first [k] lines of the new text,
    the empty file right after the truncation. *)
Theorem save_hashes_intermediate_states fs hs mode k :
  apply_events render_pdf fs (firstn (S k) (save_hashes hs mode)) !! hash_file_for_mode mode
  = Some (join_text (firstn k (hash_lines hs))).
Proof.
  unfold save_hashes. cbn [firstn].
  change (ETruncate (hash_file_for_mode mode) :: ?l)
    with ([ETruncate (hash_file_for_mode mode)] ++ l).
  rewrite apply_events_app.
  replace (map (fun h => EAppend (hash_file_for_mode mode) (String.append h newline)) (py_sorted hs))
    with (map (EAppend (hash_file_for_mode mode)) (hash_lines hs))
    by (unfold hash_lines; by rewrite map_map).
  rewrite firstn_map. unfold join_text. apply apply_appends.
  cbn. apply lookup_insert_eq.
Qed.

End RunProofs.

(* ================================================================= *)
(** ** Witnesses and counterexamples on concrete inputs *)

Lemma canonical_key_modulo_case_space_witness :
  same_modulo_case_space (Magazine vogue1) (Magazine vogue2) /\
  same_modulo_case_space (Edition vogue1) (Edition vogue2) /\
  same_modulo_case_space (Year vogue1) (Year vogue2) /\
  (row_to_string vogue1 = row_to_string vogue2 /\
   hash_row sample_digest vogue1 = hash_row sample_digest vogue2).
Proof.
  assert (H1 : same_modulo_case_space (Magazine vogue1) (Magazine vogue2))
    by (exists [], (chars "Vogue"), [], [], (chars "vogue"), []; repeat split; reflexivity).
  assert (H2 : same_modulo_case_space (Edition vogue1) (Edition vogue2))
    by (exists [], (chars "12"), [], [" "%char], (chars "12"), [" "%char];
        repeat split; reflexivity).
  assert (H3 : same_modulo_case_space (Year vogue1) (Year vogue2))
    by (exists [], (chars "2023"), [], [], (chars "2023"), []; repeat split; reflexivity).
  split; [exact H1|]. split; [exact H2|]. split; [exact H3|].
  exact (canonical_key_modulo_case_space sample_digest vogue1 vogue2 H1 H2 H3).
Defined.

Lemma load_hashes_absent_file_witness :
  (∅ : fs_t) !! hash_file_for_mode "clippings" = None /\
  (load_hashes ∅ "clippings" = ∅ /\
   filter_new sample_digest ∅ [vogue1] "clippings"
   = ([vogue1], list_to_set (map (hash_row sample_digest) [vogue1]))).
Proof.
  assert (H : (∅ : fs_t) !! hash_file_for_mode "clippings" = None) by reflexivity.
  split; [exact H|].
  exact (load_hashes_absent_file sample_digest ∅ [vogue1] "clippings" H).
Defined.

Lemma draw_loop_grid_placement_witness :
  0 < 3 /\ 0 < 8 /\
  forallb (drawable sample_para (config_of "clippings") "clippings") (repeat vogue1 25) = true /\
  (let pages := doc_pages (fst (draw_loop sample_para (config_of "clippings") "clippings" 3 8
                  (grid_x0 (config_of "clippings")) grid_y0 0 (repeat vogue1 25))) in
   snd (draw_loop sample_para (config_of "clippings") "clippings" 3 8
          (grid_x0 (config_of "clippings")) grid_y0 0 (repeat vogue1 25)) = None /\
   (forall i r, nth_error (repeat vogue1 25) i = Some r ->
      exists pre post,
        nth_error pages (i / (3 * 8))
          = Some (pre ++ fst (draw_cell sample_para (config_of "clippings") "clippings"
                                (grid_x0 (config_of "clippings")) grid_y0
                                (i mod 3) ((i / 3) mod 8) r) ++ post) /\
        List.length pre = 5 * (i mod (3 * 8))) /\
   (3 = 3 -> 8 = 8 -> List.length (repeat vogue1 25) = 25 ->
      (exists pg1 pg2, pages = [pg1; pg2] /\ count_rects pg1 = 24 /\ count_rects pg2 = 1) /\
      (forall r23, nth_error (repeat vogue1 25) 23 = Some r23 ->
         exists pre, nth_error pages 0
           = Some (pre ++ fst (draw_cell sample_para (config_of "clippings") "clippings"
                                 (grid_x0 (config_of "clippings")) grid_y0 2 7 r23))) /\
      (forall r24, nth_error (repeat vogue1 25) 24 = Some r24 ->
         nth_error pages 1
         = Some (fst (draw_cell sample_para (config_of "clippings") "clippings"
                        (grid_x0 (config_of "clippings")) grid_y0 0 0 r24))))).
Proof.
  assert (Hc : 0 < 3) by lia. assert (Hr : 0 < 8) by lia.
  assert (Hd : forallb (drawable sample_para (config_of "clippings") "clippings")
                 (repeat vogue1 25) = true) by (vm_compute; reflexivity).
  split; [exact Hc|]. split; [exact Hr|]. split; [exact Hd|].
  exact (draw_loop_grid_placement sample_para (config_of "clippings") "clippings" 3 8
           (grid_x0 (config_of "clippings")) grid_y0 (repeat vogue1 25) Hc Hr Hd).
Defined.

Lemma draw_loop_page_breaks_witness :
  0 < 3 /\ 0 < 8 /\
  forallb (drawable sample_para (config_of "clippings") "clippings") (repeat vogue1 24) = true /\
  (let cs := label_cells sample_para (config_of "clippings") "clippings" 3 8
               (grid_x0 (config_of "clippings")) grid_y0 0 (repeat vogue1 24) in
   let pages := doc_pages (fst (draw_loop sample_para (config_of "clippings") "clippings" 3 8
                  (grid_x0 (config_of "clippings")) grid_y0 0 (repeat vogue1 24))) in
   fst (draw_loop sample_para (config_of "clippings") "clippings" 3 8
          (grid_x0 (config_of "clippings")) grid_y0 0 (repeat vogue1 24))
     = with_breaks (3 * 8) 0 cs /\
   pages = map (@List.concat op) (chunk (3 * 8) cs) /\
   List.length pages = (List.length (repeat vogue1 24) + 3 * 8 - 1) / (3 * 8) /\
   Forall (fun pg => pg <> []) pages).
Proof.
  assert (Hc : 0 < 3) by lia. assert (Hr : 0 < 8) by lia.
  assert (Hd : forallb (drawable sample_para (config_of "clippings") "clippings")
                 (repeat vogue1 24) = true) by (vm_compute; reflexivity).
  split; [exact Hc|]. split; [exact Hr|]. split; [exact Hd|].
  exact (draw_loop_page_breaks sample_para (config_of "clippings") "clippings" 3 8
           (grid_x0 (config_of "clippings")) grid_y0 (repeat vogue1 24) Hc Hr Hd).
Defined.

(** C4 counterexample: with 24 records on a 3 x 8 grid, the loop still
    calls [showPage] after the last record, when no record remains. *)
Lemma draw_loop_trailing_show_page_cex :
  List.last (fst (draw_loop sample_para (config_of "clippings") "clippings" 3 8
                    (grid_x0 (config_of "clippings")) grid_y0 0 (repeat vogue1 24)))
            (SetDash []) = ShowPage.
Proof. vm_compute. reflexivity. Qed.

(** C6 counterexample: a seen-set file holding ["aa\n"], rewritten with
    the set [{aa, bb}], is empty after the first step of [save_hashes]:
    neither the prior file nor the new one. *)
Lemma save_hashes_truncation_cex :
  let path := hash_file_for_mode "clippings" in
  let fs : fs_t := <[path := String.append "aa" newline]> ∅ in
  let evs := save_hashes {[ "aa"; "bb" ]} "clippings" in
  let mid := apply_events sample_render fs (firstn 1 evs) !! path in
  mid = Some EmptyString /\
  mid <> fs !! path /\
  mid <> apply_events sample_render fs evs !! path.
Proof. vm_compute. split; [reflexivity|]. split; discriminate. Qed.

(* ================================================================= *)
(** ** Further properties of the script *)

Lemma chars_str l : chars (str l) = l.
Proof. apply list_ascii_of_string_of_list_ascii. Qed.

Lemma str_chars s : str (chars s) = s.
Proof. apply string_of_list_ascii_of_string. Qed.

Lemma chars_append a b : chars (String.append a b) = chars a ++ chars b.
Proof. unfold chars. induction a as [|c a IH]; [done|]. simpl. by f_equal. Qed.

Lemma lower_char_idem c : py_lower_char (py_lower_char c) = py_lower_char c.
Proof. destruct c as [[] [] [] [] [] [] [] []]; reflexivity. Qed.

Lemma isspace_lower_char c : py_isspace (py_lower_char c) = py_isspace c.
Proof. destruct c as [[] [] [] [] [] [] [] []]; reflexivity. Qed.

Lemma lower_idem s : py_lower (py_lower s) = py_lower s.
Proof. unfold py_lower. rewrite map_map. apply map_ext, lower_char_idem. Qed.

Lemma lstrip_lower s : py_lstrip (py_lower s) = py_lower (py_lstrip s).
Proof.
  induction s as [|c s IH]; cbn; [done|].
  rewrite isspace_lower_char. destruct (py_isspace c); [exact IH|done].
Qed.

Lemma strip_lower s : py_strip (py_lower s) = py_lower (py_strip s).
Proof.
  unfold py_strip, py_rstrip. rewrite lstrip_lower. unfold py_lower.
  rewrite <- map_rev. fold (py_lower (rev (py_lstrip s))).
  rewrite lstrip_lower. unfold py_lower. by rewrite map_rev.
Qed.

Lemma lstrip_split s : exists sp, all_space sp = true /\ s = sp ++ py_lstrip s.
Proof.
  induction s as [|c s IH]; cbn.
  - by exists [].
  - destruct (py_isspace c) eqn:E.
    + destruct IH as [sp [H1 H2]]. exists (c :: sp).
      unfold all_space in *. cbn. rewrite E, H1. split; [done|]. cbn. by rewrite <- H2.
    + by exists [].
Qed.

Lemma lstrip_idem s : py_lstrip (py_lstrip s) = py_lstrip s.
Proof.
  induction s as [|c s IH]; cbn; [done|].
  destruct (py_isspace c) eqn:E; [done|]. cbn. by rewrite E.
Qed.

Lemma lstrip_length s : List.length (py_lstrip s) <= List.length s.
Proof.
  induction s as [|c s IH]; cbn; [lia|]. destruct (py_isspace c); cbn; lia.
Qed.

Lemma lstrip_fixed_head c s : py_lstrip (c :: s) = c :: s -> py_isspace c = false.
Proof.
  cbn. destruct (py_isspace c) eqn:E; [|done]. intros H.
  pose proof (lstrip_length s) as L. rewrite H in L. cbn in L. lia.
Qed.

Lemma rstrip_split s : exists sp, all_space sp = true /\ s = py_rstrip s ++ sp.
Proof.
  destruct (lstrip_split (rev s)) as [sp [H1 H2]]. exists (rev sp).
  split; [by apply all_space_rev|]. unfold py_rstrip.
  rewrite <- (rev_involutive s) at 1. rewrite H2 at 1. apply rev_app_distr.
Qed.

Lemma lstrip_rstrip_fixed t : py_lstrip t = t -> py_lstrip (py_rstrip t) = py_rstrip t.
Proof.
  intros Ht. destruct (rstrip_split t) as [sp [_ Hs]].
  destruct (py_rstrip t) as [|c r] eqn:E; [done|].
  rewrite Hs in Ht. cbn in Ht |- *.
  change (c :: r ++ sp) with ((c :: r) ++ sp) in Ht.
  assert (Hc : py_isspace c = false).
  { apply (lstrip_fixed_head c (r ++ sp)). exact Ht. }
  by rewrite Hc.
Qed.

Lemma rstrip_idem s : py_rstrip (py_rstrip s) = py_rstrip s.
Proof. unfold py_rstrip. by rewrite rev_involutive, lstrip_idem. Qed.

Lemma strip_idem s : py_strip (py_strip s) = py_strip s.
Proof.
  unfold py_strip. rewrite lstrip_rstrip_fixed by apply lstrip_idem. apply rstrip_idem.
Qed.

Lemma strip_in x s : In x (py_strip s) -> In x s.
Proof.
  intros H. destruct (lstrip_split s) as [sp1 [_ E1]].
  destruct (rstrip_split (py_lstrip s)) as [sp2 [_ E2]].
  rewrite E1, E2. apply in_or_app. right. apply in_or_app. by left.
Qed.

(** X1. [norm] is idempotent: normalizing the normalized text of a
    cell again gives the same string. *)
Theorem norm_idempotent c : norm (Text (str (norm c))) = norm c.
Proof.
  unfold norm at 1. cbn [pd_isna py_str]. rewrite chars_str, norm_raw.
  rewrite strip_lower, strip_idem, <- strip_lower. by rewrite lower_idem.
Qed.

Lemma split_at_sep (sep : ascii) l1 r1 l2 r2 :
  ~ In sep l1 -> ~ In sep l2 -> l1 ++ sep :: r1 = l2 ++ sep :: r2 -> l1 = l2 /\ r1 = r2.
Proof.
  revert l2. induction l1 as [|a l1 IH]; intros [|b l2] H1 H2 E; cbn in *.
  - by injection E.
  - injection E as -> _. exfalso. apply H2. by left.
  - injection E as <- _. exfalso. apply H1. by left.
  - injection E as -> E. destruct (IH l2) as [-> ->]; auto.
Qed.

Lemma no_bar_not_in l : no_bar l = true -> ~ In "|"%char l.
Proof.
  unfold no_bar. rewrite forallb_forall. intros H Hin.
  specialize (H _ Hin). by rewrite Ascii.eqb_refl in H.
Qed.

(** X2. When the normalized Magazine and Edition fields contain no
    "|", equal canonical keys mean equal normalized fields: the key only
    collides for rows that normalize alike. *)
Theorem row_key_injective (r1 r2 : row) :
  no_bar (norm (Magazine r1)) = true -> no_bar (norm (Edition r1)) = true ->
  no_bar (norm (Magazine r2)) = true -> no_bar (norm (Edition r2)) = true ->
  row_to_string r1 = row_to_string r2 ->
  norm (Magazine r1) = norm (Magazine r2) /\ norm (Edition r1) = norm (Edition r2) /\
  norm (Year r1) = norm (Year r2).
Proof.
  intros H1 H2 H3 H4 E. unfold row_to_string in E.
  apply (f_equal chars) in E. rewrite !chars_str in E. cbn [app] in E.
  apply split_at_sep in E as [-> E]; [|by apply no_bar_not_in..].
  apply split_at_sep in E as [-> ->]; [|by apply no_bar_not_in..]. done.
Qed.

Lemma row_key_injective_witness :
  no_bar (norm (Magazine vogue1)) = true /\ no_bar (norm (Edition vogue1)) = true /\
  no_bar (norm (Magazine vogue2)) = true /\ no_bar (norm (Edition vogue2)) = true /\
  row_to_string vogue1 = row_to_string vogue2 /\
  (norm (Magazine vogue1) = norm (Magazine vogue2) /\
   norm (Edition vogue1) = norm (Edition vogue2) /\ norm (Year vogue1) = norm (Year vogue2)).
Proof.
  assert (H1 : no_bar (norm (Magazine vogue1)) = true) by reflexivity.
  assert (H2 : no_bar (norm (Edition vogue1)) = true) by reflexivity.
  assert (H3 : no_bar (norm (Magazine vogue2)) = true) by reflexivity.
  assert (H4 : no_bar (norm (Edition vogue2)) = true) by reflexivity.
  assert (H5 : row_to_string vogue1 = row_to_string vogue2) by reflexivity.
  do 5 (split; [assumption|]).
  exact (row_key_injective vogue1 vogue2 H1 H2 H3 H4 H5).
Defined.

Lemma join_text_chars ls t :
  chars (fold_left String.append ls t) = chars t ++ List.concat (map chars ls).
Proof.
  revert t. induction ls as [|l ls IH]; intros t; cbn.
  - by rewrite app_nil_r.
  - rewrite IH, chars_append. by rewrite app_assoc.
Qed.

Lemma lines_acc_app cur l rest :
  ~ In "010"%char l ->
  py_lines_acc cur (l ++ "010"%char :: rest) = (cur ++ l ++ ["010"%char]) :: py_lines_acc [] rest.
Proof.
  revert cur. induction l as [|c l IH]; intros cur Hn; [done|].
  cbn in Hn |- *. destruct (Ascii.eqb c "010"%char) eqn:E.
  - apply Ascii.eqb_eq in E. subst. exfalso. apply Hn. by left.
  - rewrite IH by tauto. by rewrite <- app_assoc.
Qed.

Lemma lines_of_written (L : list string) :
  Forall (fun h => ~ In "010"%char (chars h)) L ->
  py_lines_acc [] (List.concat (map chars (map (fun h => String.append h newline) L)))
  = map (fun h => chars h ++ ["010"%char]) L.
Proof.
  induction L as [|h L IH]; intros HF; [done|]. inversion HF; subst.
  cbn [map List.concat]. rewrite chars_append. change (chars newline) with ["010"%char].
  rewrite <- app_assoc. cbn [app]. rewrite lines_acc_app by done. cbn. by rewrite IH.
Qed.

Lemma py_newlines_id l : ~ In "013"%char l -> py_newlines l = l.
Proof.
  induction l as [|c l IH]; intros Hn; [done|]. cbn.
  destruct (Ascii.eqb c "013"%char) eqn:E.
  - apply Ascii.eqb_eq in E as ->. exfalso. apply Hn. by left.
  - rewrite IH; [done|]. intros H. apply Hn. by right.
Qed.

Lemma py_newlines_no_cr l : ~ In "013"%char (py_newlines l).
Proof.
  remember (List.length l) as n eqn:En. revert l En.
  induction n as [n IH] using lt_wf_ind. intros l En.
  destruct l as [|c t]; [intros []|]. cbn.
  destruct (Ascii.eqb c "013"%char) eqn:E.
  - intros [H|H]; [discriminate|].
    destruct t as [|d t']; [destruct H|].
    destruct (Ascii.eqb d "010"%char).
    + revert H. apply (IH (List.length t')); [cbn in En; lia|done].
    + revert H. apply (IH (List.length (d :: t'))); [cbn in En |- *; lia|done].
  - intros [H|H].
    + subst. by rewrite Ascii.eqb_refl in E.
    + revert H. apply (IH (List.length t)); [cbn in En; lia|done].
Qed.

Lemma lines_acc_sub cur s l x :
  In l (py_lines_acc cur s) -> In x l -> In x cur \/ In x s.
Proof.
  revert cur. induction s as [|c s IH]; intros cur Hl Hx; cbn in Hl.
  - destruct cur as [|a cur]; [done|]. destruct Hl as [<-|[]]. by left.
  - destruct (Ascii.eqb c "010"%char).
    + destruct Hl as [<-|Hl].
      * apply in_app_iff in Hx as [Hx|[<-|[]]]; [by left|right; by left].
      * destruct (IH [] Hl Hx) as [[]|H]. right. by right.
    + destruct (IH _ Hl Hx) as [H|H]; [|right; by right].
      apply in_app_iff in H as [H|[<-|[]]]; [by left|right; by left].
Qed.

Lemma insert_sorted_perm x l : insert_sorted x l ≡ₚ x :: l.
Proof.
  induction l as [|y l IH]; cbn; [done|].
  destruct (str_ltb y x); [|done]. rewrite IH. apply Permutation_swap.
Qed.

Lemma isort_perm l : isort l ≡ₚ l.
Proof. induction l as [|x l IH]; cbn; [done|]. by rewrite insert_sorted_perm, IH. Qed.

Lemma py_sorted_perm hs : py_sorted hs ≡ₚ elements hs.
Proof.
  unfold py_sorted. etransitivity; [apply Permutation_map, isort_perm|].
  rewrite map_map, (map_ext _ id str_chars), map_id. done.
Qed.

Lemma list_to_set_perm_strings (l1 l2 : list string) :
  l1 ≡ₚ l2 -> (list_to_set l1 : gset string) = list_to_set l2.
Proof. intros P. apply set_eq. intros x. rewrite !elem_of_list_to_set. by rewrite P. Qed.

Lemma save_hashes_file render_pdf fs hs mode :
  apply_events render_pdf fs (save_hashes hs mode) !! hash_file_for_mode mode
  = Some (join_text (hash_lines hs)).
Proof.
  unfold save_hashes.
  change (ETruncate (hash_file_for_mode mode) :: ?l)
    with ([ETruncate (hash_file_for_mode mode)] ++ l).
  rewrite apply_events_app.
  replace (map (fun h => EAppend (hash_file_for_mode mode) (String.append h newline)) (py_sorted hs))
    with (map (EAppend (hash_file_for_mode mode)) (hash_lines hs))
    by (unfold hash_lines; by rewrite map_map).
  unfold join_text. apply apply_appends.
  cbn. apply lookup_insert_eq.
Qed.

(** Round trip with the weakest hypothesis the model needs. *)
Lemma save_load_id render_pdf fs hs mode :
  set_Forall (fun h => ~ In "010"%char (chars h) /\ ~ In "013"%char (chars h) /\
                       py_strip (chars h) = chars h) hs ->
  load_hashes (apply_events render_pdf fs (save_hashes hs mode)) mode = hs.
Proof.
  intros Hc. unfold load_hashes. rewrite save_hashes_file.
  unfold py_lines, join_text. rewrite join_text_chars.
  change (chars EmptyString) with (@nil ascii). cbn [app].
  assert (Hin : forall h, In h (py_sorted hs) -> h ∈ hs).
  { intros h Hh. apply elem_of_elements. rewrite <- py_sorted_perm. by apply list_elem_of_In. }
  unfold hash_lines. rewrite py_newlines_id.
  2: { intros Hx. apply in_concat in Hx as [l [Hl Hx]].
       apply in_map_iff in Hl as [u [<- Hu]]. apply in_map_iff in Hu as [h [<- Hh]].
       rewrite chars_append in Hx. apply in_app_iff in Hx as [Hx|[Hx|[]]]; [|discriminate].
       by apply (Hc h (Hin h Hh)). }
  rewrite lines_of_written.
  2: { apply List.Forall_forall. intros h Hh. apply (Hc h), Hin, Hh. }
  rewrite map_map. rewrite (map_ext_in _ id).
  2: { intros h Hh. destruct (Hc h (Hin h Hh)) as [_ [_ Hs]].
       rewrite strip_app_space by reflexivity. by rewrite Hs, str_chars. }
  rewrite map_id. rewrite (list_to_set_perm_strings _ _ (py_sorted_perm hs)).
  apply list_to_set_elements_L.
Qed.

Lemma line_clean_spec h :
  line_clean h = true ->
  ~ In "010"%char (chars h) /\ ~ In "013"%char (chars h) /\ py_strip (chars h) = chars h.
Proof.
  unfold line_clean. intros [H1 H2]%andb_prop. rewrite forallb_forall in H1. split; [|split].
  - intros Hin. specialize (H1 _ Hin). done.
  - intros Hin. specialize (H1 _ Hin). done.
  - by apply bool_decide_eq_true in H2.
Qed.

(** X3. Saving a set of hashes, each without a line break and without
    whitespace at either end, and then loading the seen-set file of the
    same mode gives back exactly that set, whatever the file held before. *)
Theorem save_then_load_round_trip (render_pdf : list (list op) -> string)
    (fs : fs_t) (hs : gset string) (mode : string) :
  set_Forall (fun h => line_clean h = true) hs ->
  load_hashes (apply_events render_pdf fs (save_hashes hs mode)) mode = hs.
Proof.
  intros Hc. apply save_load_id. intros h Hh. by apply line_clean_spec, Hc.
Qed.

Lemma save_then_load_round_trip_witness :
  set_Forall (fun h => line_clean h = true) ({[ "ab"; "0f" ]} : gset string) /\
  load_hashes (apply_events sample_render (<[ "printed_clippings.hashes" := "x" ]> ∅)
                 (save_hashes {[ "ab"; "0f" ]} "clippings")) "clippings"
  = {[ "ab"; "0f" ]}.
Proof.
  assert (H : set_Forall (fun h => line_clean h = true) ({[ "ab"; "0f" ]} : gset string))
    by (apply (bool_decide_unpack _); vm_compute; reflexivity).
  split; [exact H|].
  exact (save_then_load_round_trip sample_render _ _ "clippings" H).
Defined.

Lemma lines_acc_shape cur s l :
  ~ In "010"%char cur -> In l (py_lines_acc cur s) ->
  exists l', ~ In "010"%char l' /\ (l = l' ++ ["010"%char] \/ l = l').
Proof.
  revert cur. induction s as [|c s IH]; intros cur Hc Hl; cbn in Hl.
  - destruct cur as [|a cur]; [done|]. destruct Hl as [<-|[]].
    exists (a :: cur). split; [done|by right].
  - destruct (Ascii.eqb c "010"%char) eqn:E.
    + apply Ascii.eqb_eq in E as ->. destruct Hl as [<-|Hl].
      * exists cur. split; [done|by left].
      * apply (IH []); [intros []|exact Hl].
    + apply (IH (cur ++ [c])); [|exact Hl].
      rewrite in_app_iff. intros [H|[H|[]]]; [done|]. subst. by rewrite Ascii.eqb_refl in E.
Qed.

Lemma loaded_ok fs mode :
  set_Forall (fun h => ~ In "010"%char (chars h) /\ ~ In "013"%char (chars h) /\
                       py_strip (chars h) = chars h)
    (load_hashes fs mode).
Proof.
  unfold load_hashes. destruct (fs !! hash_file_for_mode mode) as [s|]; [|set_solver].
  intros h Hh. apply elem_of_list_to_set, list_elem_of_In, in_map_iff in Hh as [l [<- Hl]].
  destruct (lines_acc_shape [] _ l (fun x => x) Hl) as [l' [Hn Hs]].
  assert (Hcr : ~ In "013"%char l).
  { intros Hx. destruct (lines_acc_sub _ _ _ _ Hl Hx) as [[]|Hx'].
    exact (py_newlines_no_cr _ Hx'). }
  assert (Hst : py_strip l = py_strip l').
  { destruct Hs as [->| ->]; [by apply strip_app_space|done]. }
  rewrite chars_str, Hst. split; [|split].
  - intros Hin. by apply Hn, (strip_in _ _ Hin).
  - intros Hin. apply Hcr. apply strip_in in Hin.
    destruct Hs as [->| ->]; [apply in_app_iff; by left|done].
  - apply strip_idem.
Qed.

(** X11. Every hash returned by [load_hashes] contains no line break,
    neither a line feed nor a carriage return, and no whitespace at
    either end. *)
Theorem loaded_hashes_are_stripped_lines (fs : fs_t) (mode : string) :
  forall h, h ∈ load_hashes fs mode ->
  ~ In "010"%char (chars h) /\ ~ In "013"%char (chars h) /\ py_strip (chars h) = chars h.
Proof. exact (loaded_ok fs mode). Qed.

Lemma loaded_hashes_are_stripped_lines_witness :
  "cd" ∈ load_hashes (<[ "printed_clippings.hashes" :=
                          String.append " ab" (String "013"%char "cd ") ]> ∅) "clippings" /\
  ~ In "010"%char (chars "cd") /\ ~ In "013"%char (chars "cd") /\ py_strip (chars "cd") = chars "cd".
Proof.
  assert (H : "cd" ∈ load_hashes (<[ "printed_clippings.hashes" :=
                          String.append " ab" (String "013"%char "cd ") ]> ∅) "clippings")
    by (apply (bool_decide_unpack _); vm_compute; reflexivity).
  split; [exact H|].
  exact (loaded_hashes_are_stripped_lines _ "clippings" "cd" H).
Defined.

Lemma run_core_shape sha para fs df mode :
  (fst (filter_new sha fs df mode) = [] /\
   run_core sha para fs df mode = ([EPrint "No new labels."], None)) \/
  (exists pages msg,
     run_core sha para fs df mode
     = (ESavePdf (pdf_name mode) pages
          :: save_hashes (snd (filter_new sha fs df mode)) mode ++ [EPrint msg], None)) \/
  (exists e, run_core sha para fs df mode = ([], Some e)).
Proof.
  unfold run_core. destruct (filter_new sha fs df mode) as [nr nh]. cbn [fst snd].
  destruct nr as [|r rs]; [by left|]. right.
  destruct (generate_labels_shape para (r :: rs) mode) as [[pages Eg]|[e Eg]].
  - left. rewrite Eg. by eexists _, _.
  - right. rewrite Eg. by exists e.
Qed.

Lemma apply_events_frame render_pdf fs evs p :
  (forall e, In e evs -> ~ modifies p e) ->
  apply_events render_pdf fs evs !! p = fs !! p.
Proof.
  revert fs. induction evs as [|e evs IH]; intros fs H; [done|].
  unfold apply_events. cbn [fold_left]. fold (apply_events render_pdf (apply_event render_pdf fs e) evs).
  rewrite IH by (intros; apply H; by right).
  assert (Hm : ~ modifies p e) by (apply H; by left).
  destruct e as [s|q|q s|q pg]; cbn [apply_event modifies] in Hm |- *; [done| | |].
  - by apply lookup_insert_ne.
  - destruct (fs !! q); by apply lookup_insert_ne.
  - by apply lookup_insert_ne.
Qed.

Lemma run_core_frame sha para render_pdf fs df mode evs err p :
  run_core sha para fs df mode = (evs, err) ->
  p <> pdf_name mode -> p <> hash_file_for_mode mode ->
  apply_events render_pdf fs evs !! p = fs !! p.
Proof.
  intros Hr Hp Hh. apply apply_events_frame. intros e He Hm.
  destruct (run_core_shape sha para fs df mode)
    as [[_ E]|[[pages [msg E]]|[ex E]]]; rewrite E in Hr; injection Hr as <- _.
  - destruct He as [<-|[]]. done.
  - destruct He as [<-|He]; [by apply Hp|].
    destruct He as [<-|He]; [by apply Hh|].
    apply in_app_iff in He as [He|[<-|[]]]; [|done].
    apply in_map_iff in He as [h [<- _]]. by apply Hh.
  - done.
Qed.

Lemma filter_all_known sha (S : gset string) (df : list row) :
  (forall r, In r df -> hash_row sha r ∈ S) ->
  filter (fun r => hash_row sha r ∉ S) df = [].
Proof.
  induction df as [|r df IH]; intros H; [done|].
  rewrite filter_cons_False.
  - apply IH. intros; apply H; by right.
  - intros Hn. apply Hn, H. by left.
Qed.

Lemma run_core_seen_set_aux sha para render_pdf fs df mode evs :
  (forall s, line_clean (sha s) = true) ->
  run_core sha para fs df mode = (evs, None) ->
  load_hashes (apply_events render_pdf fs evs) mode
  = load_hashes fs mode ∪ list_to_set (map (hash_row sha) df).
Proof.
  intros Hsha Hr.
  destruct (run_core_shape sha para fs df mode)
    as [[Hnil E]|[[pages [msg E]]|[ex E]]]; rewrite E in Hr;
    [injection Hr as <-|injection Hr as <-|discriminate Hr].
  - cbn. apply set_eq. intros x.
    rewrite elem_of_union, elem_of_list_to_set, list_elem_of_In, in_map_iff.
    split; [tauto|]. intros [Hx|[r [<- Hin]]]; [done|].
    destruct (decide (hash_row sha r ∈ load_hashes fs mode)) as [|Hn]; [done|].
    exfalso. rewrite filter_new_fst in Hnil.
    assert (Hf : r ∈ filter (fun r => hash_row sha r ∉ load_hashes fs mode) df)
      by (apply list_elem_of_filter; split; [done|by apply list_elem_of_In]).
    rewrite Hnil in Hf. set_solver.
  - rewrite app_comm_cons.
    change (ETruncate (hash_file_for_mode mode) :: ?l)
      with (save_hashes (snd (filter_new sha fs df mode)) mode).
    change (apply_events render_pdf fs (?e :: ?l))
      with (apply_events render_pdf (apply_event render_pdf fs e) l).
    rewrite apply_events_app.
    change (apply_events render_pdf ?f [EPrint msg]) with f.
    rewrite save_load_id.
    + apply filter_new_snd.
    + rewrite filter_new_snd. apply set_Forall_union; [apply loaded_ok|].
      intros h Hh. apply elem_of_list_to_set, list_elem_of_In, in_map_iff in Hh as [r [<- _]].
      apply line_clean_spec, Hsha.
Qed.

(** X5. When the digest never yields a line break or surrounding
    whitespace, a run of lines 237-244 that raises nothing leaves on disk
    a seen-set equal to the prior one united with the hashes of every
    input row, the rows printed now and those skipped as already seen. *)
Theorem run_core_records_all_input_hashes (sha256_hex : string -> string)
    (para : string -> cell -> Q -> Q -> py_exc + Q) (render_pdf : list (list op) -> string)
    (fs : fs_t) (df : list row) (mode : string) (evs : list event) :
  (forall s, line_clean (sha256_hex s) = true) ->
  run_core sha256_hex para fs df mode = (evs, None) ->
  load_hashes (apply_events render_pdf fs evs) mode
  = load_hashes fs mode ∪ list_to_set (map (hash_row sha256_hex) df).
Proof. apply run_core_seen_set_aux. Qed.

Lemma run_core_records_all_input_hashes_witness :
  (forall s, line_clean (sample_hex s) = true) /\
  run_core sample_hex sample_para ∅ [vogue1; vogue2] "clippings"
    = (fst (run_core sample_hex sample_para ∅ [vogue1; vogue2] "clippings"), None) /\
  load_hashes (apply_events sample_render ∅
                 (fst (run_core sample_hex sample_para ∅ [vogue1; vogue2] "clippings")))
              "clippings"
  = load_hashes ∅ "clippings" ∪ list_to_set (map (hash_row sample_hex) [vogue1; vogue2]).
Proof.
  assert (H1 : forall s, line_clean (sample_hex s) = true) by (intros; reflexivity).
  assert (H2 : run_core sample_hex sample_para ∅ [vogue1; vogue2] "clippings"
               = (fst (run_core sample_hex sample_para ∅ [vogue1; vogue2] "clippings"), None))
    by (vm_compute; reflexivity).
  split; [exact H1|]. split; [exact H2|].
  exact (run_core_records_all_input_hashes sample_hex sample_para sample_render ∅
           [vogue1; vogue2] "clippings" _ H1 H2).
Defined.

Lemma csv_name_ends s : ends_with_csv (if ends_with_csv s then s else String.append s ".csv") = true.
Proof.
  destruct (ends_with_csv s) eqn:E; [done|].
  unfold ends_with_csv. rewrite chars_append, rev_app_distr. reflexivity.
Qed.

Lemma csv_append_ends x : ends_with_csv (String.append x ".csv") = true.
Proof. unfold ends_with_csv. rewrite chars_append, rev_app_distr. reflexivity. Qed.

Lemma pdf_name_not_csv m : ends_with_csv (pdf_name m) = false.
Proof. unfold ends_with_csv, pdf_name. rewrite !chars_append, !rev_app_distr. reflexivity. Qed.

Lemma hash_file_not_csv m : ends_with_csv (hash_file_for_mode m) = false.
Proof. unfold ends_with_csv, hash_file_for_mode. rewrite !chars_append, !rev_app_distr. reflexivity. Qed.

Lemma run_core_no_new sha para fs df mode :
  fst (filter_new sha fs df mode) = [] ->
  run_core sha para fs df mode = ([EPrint "No new labels."], None).
Proof. unfold run_core. destruct (filter_new sha fs df mode) as [nr nh]. cbn. by intros ->. Qed.

(** X6. Running the whole script a second time with the same answers,
    on the disk left by a first run that raised nothing, prints only
    "No new labels." and writes nothing. *)
Theorem main_second_run_no_new_labels (sha256_hex : string -> string)
    (para : string -> cell -> Q -> Q -> py_exc + Q) (read_csv : string -> py_exc + list row)
    (render_pdf : list (list op) -> string) (answer1 answer2 : string) (fs : fs_t)
    (evs : list event) :
  (forall s, line_clean (sha256_hex s) = true) ->
  main sha256_hex para read_csv answer1 answer2 fs = (evs, None) ->
  main sha256_hex para read_csv answer1 answer2 (apply_events render_pdf fs evs)
  = ([EPrint "No new labels."], None).
Proof.
  intros Hsha Hm. unfold main in *. cbv zeta in Hm |- *.
  destruct (negb _); [discriminate|].
  set (mode := if bool_decide (py_lower (py_strip (chars answer1)) = ["c"%char])
               then "clippings" else "magazines") in *.
  set (csv0 := str (py_strip (chars answer2))) in *.
  set (csv_name := if ends_with_csv csv0 then csv0 else String.append csv0 ".csv") in *.
  destruct (fs !! csv_name) as [contents|] eqn:Ec; [|discriminate].
  destruct (read_csv contents) as [e|df] eqn:Er; [discriminate|].
  assert (Hne : ends_with_csv csv_name = true) by apply csv_name_ends.
  rewrite (run_core_frame sha256_hex para render_pdf fs df mode evs None csv_name Hm).
  2: { intros E. rewrite E, pdf_name_not_csv in Hne. discriminate. }
  2: { intros E. rewrite E, hash_file_not_csv in Hne. discriminate. }
  rewrite Ec, Er. apply run_core_no_new. rewrite filter_new_fst.
  rewrite (run_core_seen_set_aux sha256_hex para render_pdf fs df mode evs Hsha Hm).
  apply filter_all_known. intros r Hr.
  apply elem_of_union_r, elem_of_list_to_set, list_elem_of_In, in_map_iff. eauto.
Qed.

Lemma main_second_run_no_new_labels_witness :
  (forall s, line_clean (sample_hex s) = true) /\
  main sample_hex sample_para sample_csv "c" "data" (<["data.csv" := ""]> ∅)
  = (fst (main sample_hex sample_para sample_csv "c" "data" (<["data.csv" := ""]> ∅)), None) /\
  main sample_hex sample_para sample_csv "c" "data"
    (apply_events sample_render (<["data.csv" := ""]> ∅)
       (fst (main sample_hex sample_para sample_csv "c" "data" (<["data.csv" := ""]> ∅))))
  = ([EPrint "No new labels."], None).
Proof.
  assert (H1 : forall s, line_clean (sample_hex s) = true) by (intros; reflexivity).
  assert (H2 : main sample_hex sample_para sample_csv "c" "data" (<["data.csv" := ""]> ∅)
    = (fst (main sample_hex sample_para sample_csv "c" "data" (<["data.csv" := ""]> ∅)), None))
    by (vm_compute; reflexivity).
  split; [exact H1|]. split; [exact H2|].
  exact (main_second_run_no_new_labels sample_hex sample_para sample_csv sample_render
           "c" "data" _ _ H1 H2).
Defined.

Lemma str_append l u : str (l ++ chars u) = String.append (str l) u.
Proof. rewrite <- (str_chars (String.append (str l) u)), chars_append, chars_str. done. Qed.

Lemma strip_append_csv t : py_lstrip t = t -> py_strip (t ++ chars ".csv") = t ++ chars ".csv".
Proof.
  intros Ht. unfold py_strip.
  assert (Hl : py_lstrip (t ++ chars ".csv") = t ++ chars ".csv").
  { destruct t as [|c t']; [reflexivity|].
    pose proof (lstrip_fixed_head c t' Ht) as Hc. cbn. by rewrite Hc. }
  rewrite Hl. unfold py_rstrip. rewrite rev_app_distr.
  change (rev (chars ".csv")) with ["v"; "s"; "c"; "."]%char.
  replace (py_lstrip (["v"; "s"; "c"; "."]%char ++ rev t))
    with (["v"; "s"; "c"; "."]%char ++ rev t) by reflexivity.
  rewrite rev_app_distr, rev_involutive. reflexivity.
Qed.

(** X8. Typing the CSV name without its ".csv" suffix, or with
    surrounding whitespace, behaves exactly as typing the stripped name
    with the suffix. *)
Theorem main_csv_suffix_optional (sha256_hex : string -> string)
    (para : string -> cell -> Q -> Q -> py_exc + Q) (read_csv : string -> py_exc + list row)
    (answer1 answer2 : string) (fs : fs_t) :
  ends_with_csv (str (py_strip (chars answer2))) = false ->
  main sha256_hex para read_csv answer1 answer2 fs
  = main sha256_hex para read_csv answer1
      (String.append (str (py_strip (chars answer2))) ".csv") fs.
Proof.
  intros H.
  assert (E : str (py_strip (chars (String.append (str (py_strip (chars answer2))) ".csv")))
              = String.append (str (py_strip (chars answer2))) ".csv").
  { rewrite chars_append, chars_str, strip_append_csv.
    - apply str_append.
    - unfold py_strip. apply lstrip_rstrip_fixed, lstrip_idem. }
  unfold main. cbv zeta. rewrite E, H, csv_append_ends. reflexivity.
Qed.

Lemma main_csv_suffix_optional_witness :
  ends_with_csv (str (py_strip (chars " data "))) = false /\
  main sample_hex sample_para sample_csv "c" " data " ∅
  = main sample_hex sample_para sample_csv "c"
      (String.append (str (py_strip (chars " data "))) ".csv") ∅.
Proof.
  assert (H : ends_with_csv (str (py_strip (chars " data "))) = false) by reflexivity.
  split; [exact H|].
  exact (main_csv_suffix_optional sample_hex sample_para sample_csv "c" " data " ∅ H).
Defined.

(** X9. The script never changes any file other than the two label
    PDFs and the two seen-set files; in particular the input CSV is never
    modified. *)
Theorem main_writes_only_outputs (sha256_hex : string -> string)
    (para : string -> cell -> Q -> Q -> py_exc + Q) (read_csv : string -> py_exc + list row)
    (render_pdf : list (list op) -> string) (answer1 answer2 : string) (fs : fs_t) (p : string) :
  p <> pdf_name "clippings" -> p <> pdf_name "magazines" ->
  p <> hash_file_for_mode "clippings" -> p <> hash_file_for_mode "magazines" ->
  apply_events render_pdf fs (fst (main sha256_hex para read_csv answer1 answer2 fs)) !! p
  = fs !! p.
Proof.
  intros H1 H2 H3 H4. unfold main. cbv zeta.
  destruct (negb _); [done|]. destruct (fs !! _); [|done]. destruct (read_csv _) as [e|df]; [done|].
  destruct (bool_decide _).
  - apply (run_core_frame sha256_hex para render_pdf fs df "clippings" _
             (snd (run_core sha256_hex para fs df "clippings"))); [|done..].
    apply surjective_pairing.
  - apply (run_core_frame sha256_hex para render_pdf fs df "magazines" _
             (snd (run_core sha256_hex para fs df "magazines"))); [|done..].
    apply surjective_pairing.
Qed.

Lemma main_writes_only_outputs_witness :
  "data.csv" <> pdf_name "clippings" /\ "data.csv" <> pdf_name "magazines" /\
  "data.csv" <> hash_file_for_mode "clippings" /\ "data.csv" <> hash_file_for_mode "magazines" /\
  apply_events sample_render (<["data.csv" := "x"]> ∅)
    (fst (main sample_hex sample_para sample_csv "c" "data" (<["data.csv" := "x"]> ∅)))
    !! "data.csv"
  = (<["data.csv" := "x"]> ∅ : fs_t) !! "data.csv".
Proof.
  assert (H1 : "data.csv" <> pdf_name "clippings") by discriminate.
  assert (H2 : "data.csv" <> pdf_name "magazines") by discriminate.
  assert (H3 : "data.csv" <> hash_file_for_mode "clippings") by discriminate.
  assert (H4 : "data.csv" <> hash_file_for_mode "magazines") by discriminate.
  split; [exact H1|]. split; [exact H2|]. split; [exact H3|]. split; [exact H4|].
  exact (main_writes_only_outputs sample_hex sample_para sample_csv sample_render
           "c" "data" _ "data.csv" H1 H2 H3 H4).
Defined.

Lemma pages_acc_in cur ops pg o :
  In pg (pages_acc cur ops) -> In o pg -> In o cur \/ In o ops.
Proof.
  revert cur. induction ops as [|x ops IH]; intros cur Hpg Ho; cbn in Hpg.
  - destruct cur; [done|]. destruct Hpg as [<-|[]]. by left.
  - destruct x; try (destruct (IH _ Hpg Ho) as [H|H];
                     [apply in_app_iff in H as [H|[<-|[]]]; [by left|right; by left]
                     |right; by right]).
    destruct Hpg as [<-|Hpg]; [by left|].
    destruct (IH _ Hpg Ho) as [[]|H]. right; by right.
Qed.

Lemma rect_in_draw_cell para cfg mode x0 y0 col row_i r x y w h :
  In (Rect x y w h) (fst (draw_cell para cfg mode x0 y0 col row_i r)) ->
  x = (x0 + inject_nat col * label_w cfg)%Q /\
  y = (y0 - inject_nat row_i * label_h cfg - label_h cfg)%Q /\
  w = label_w cfg /\ h = label_h cfg.
Proof.
  unfold draw_cell. cbv zeta.
  destruct (para _ _ _ _); [|destruct (para _ _ _ _)]; cbn;
    intros H; repeat destruct H as [H|H]; try discriminate; try contradiction;
    injection H as <- <- <- <-; auto.
Qed.

Lemma draw_loop_rects para cfg mode cols rpp x0 y0 i rows x y w h :
  In (Rect x y w h) (fst (draw_loop para cfg mode cols rpp x0 y0 i rows)) ->
  exists col row_i r, col < cols /\ row_i < rpp /\
    In (Rect x y w h) (fst (draw_cell para cfg mode x0 y0 col row_i r)).
Proof.
  revert i. induction rows as [|r rs IH]; intros i; cbn [draw_loop]; [done|].
  unfold py_mod, py_div.
  destruct (cols =? 0) eqn:Ec; [done|]. destruct (rpp =? 0) eqn:Er; [done|].
  apply Nat.eqb_neq in Ec, Er.
  assert (Hcol : i mod cols < cols) by (apply Nat.mod_upper_bound; done).
  assert (Hrow : (i / cols) mod rpp < rpp) by (apply Nat.mod_upper_bound; done).
  destruct (draw_cell para cfg mode x0 y0 (i mod cols) ((i / cols) mod rpp) r)
    as [ops1 [e1|]] eqn:Ed.
  { cbn. intros H. exists (i mod cols), ((i / cols) mod rpp), r. by rewrite Ed. }
  destruct (cols * rpp =? 0).
  { cbn. intros H. exists (i mod cols), ((i / cols) mod rpp), r. by rewrite Ed. }
  specialize (IH (S i)).
  destruct (draw_loop para cfg mode cols rpp x0 y0 (S i) rs) as [ops2 e2].
  cbn. intros H. apply in_app_iff in H as [H|H].
  - exists (i mod cols), ((i / cols) mod rpp), r. by rewrite Ed.
  - apply in_app_iff in H as [H|H]; [|by apply IH].
    destruct (S i mod (cols * rpp) =? 0); cbn in H; [destruct H as [H|[]]; discriminate | done].
Qed.

Lemma grid_inside_modes mode : grid_inside (config_of mode) = true.
Proof. unfold config_of. destruct (String.eqb mode "clippings"); vm_compute; reflexivity. Qed.

(** X10. Every label border in a document saved by [generate_labels]
    lies inside the 20-point page margins of the A4 page, in both modes. *)
Theorem generate_labels_inside_margins (para : string -> cell -> Q -> Q -> py_exc + Q)
    (rows : list row) (mode p : string) (pages : list (list op)) :
  generate_labels para rows mode = ([ESavePdf p pages], None) ->
  forall pg x y w h, In pg pages -> In (Rect x y w h) pg ->
  (page_margin_left <= x /\ x + w <= A4_width - page_margin_right /\
   page_margin_bottom <= y /\ y + h <= A4_height - page_margin_top)%Q.
Proof.
  unfold generate_labels.
  destruct (draw_loop para _ _ _ _ _ _ _ rows) as [ops [e|]] eqn:Ed; [discriminate|].
  intros [= _ <-] pg x y w h Hpg Hr.
  destruct (pages_acc_in [] ops pg _ Hpg Hr) as [Ho|Ho]; [destruct Ho|].
  replace ops with (fst (draw_loop para (config_of mode) mode (grid_cols (config_of mode))
                     (grid_rows (config_of mode)) (grid_x0 (config_of mode)) grid_y0 0 rows))
    in Ho by (by rewrite Ed).
  apply draw_loop_rects in Ho as (col & row_i & r & Hc & Hrw & Hin).
  apply rect_in_draw_cell in Hin as (-> & -> & -> & ->).
  pose proof (grid_inside_modes mode) as G. unfold grid_inside in G.
  rewrite forallb_forall in G. specialize (G col (proj2 (in_seq _ _ _) (conj (Nat.le_0_l _) Hc))).
  rewrite forallb_forall in G. specialize (G row_i (proj2 (in_seq _ _ _) (conj (Nat.le_0_l _) Hrw))).
  unfold rect_inside in G. apply andb_prop in G as [G G4]. apply andb_prop in G as [G G3].
  apply andb_prop in G as [G1 G2]. apply Qle_bool_iff in G1, G2, G3, G4. auto.
Qed.

Lemma generate_labels_inside_margins_witness :
  let pages := doc_pages (fst (draw_loop sample_para (config_of "clippings") "clippings"
                 (grid_cols (config_of "clippings")) (grid_rows (config_of "clippings"))
                 (grid_x0 (config_of "clippings")) grid_y0 0 [vogue1; vogue2])) in
  generate_labels sample_para [vogue1; vogue2] "clippings"
    = ([ESavePdf (pdf_name "clippings") pages], None) /\
  (forall pg x y w h, In pg pages -> In (Rect x y w h) pg ->
   (page_margin_left <= x /\ x + w <= A4_width - page_margin_right /\
    page_margin_bottom <= y /\ y + h <= A4_height - page_margin_top)%Q).
Proof.
  intros pages.
  assert (H : generate_labels sample_para [vogue1; vogue2] "clippings"
              = ([ESavePdf (pdf_name "clippings") pages], None)) by (vm_compute; reflexivity).
  split; [exact H|].
  exact (generate_labels_inside_margins sample_para [vogue1; vogue2] "clippings" _ _ H).
Defined.

Lemma str_ltb_asym a b : str_ltb a b = true -> str_ltb b a = false.
Proof.
  revert b. induction a as [|x a IH]; intros [|y b]; cbn [str_ltb]; try done.
  destruct (Nat.ltb_spec (code x) (code y)); destruct (Nat.ltb_spec (code y) (code x));
    try lia; try done. apply IH.
Qed.

Lemma code_inj x y : code x = code y -> x = y.
Proof.
  unfold code. intros H.
  rewrite <- (ascii_nat_embedding x), <- (ascii_nat_embedding y). by rewrite H.
Qed.

Lemma str_ltb_total a b : str_ltb a b = false -> str_ltb b a = false -> a = b.
Proof.
  revert b. induction a as [|x a IH]; intros [|y b]; cbn [str_ltb]; try done.
  destruct (Nat.ltb_spec (code x) (code y)); destruct (Nat.ltb_spec (code y) (code x));
    try done. intros H1 H2. f_equal; [apply code_inj; lia|]. by apply IH.
Qed.

Lemma insert_sorted_hd y x l :
  HdRel (fun a b => str_ltb b a = false) y l -> str_ltb x y = false ->
  HdRel (fun a b => str_ltb b a = false) y (insert_sorted x l).
Proof.
  intros Hh Hxy. destruct l as [|z l]; cbn; [by constructor|].
  destruct (str_ltb z x); constructor; [by inversion Hh|done].
Qed.

Lemma insert_sorted_sorted x l :
  Sorted (fun a b => str_ltb b a = false) l ->
  Sorted (fun a b => str_ltb b a = false) (insert_sorted x l).
Proof.
  induction l as [|y l IH]; intros Hs; cbn; [by repeat constructor|].
  apply Sorted_inv in Hs as [Hs Hh].
  destruct (str_ltb y x) eqn:E.
  - constructor; [by apply IH|]. apply insert_sorted_hd; [done|]. by apply str_ltb_asym.
  - constructor; [by constructor|]. by constructor.
Qed.

Lemma isort_sorted l : Sorted (fun a b => str_ltb b a = false) (isort l).
Proof. induction l as [|x l IH]; cbn; [constructor|]. by apply insert_sorted_sorted. Qed.

Lemma sorted_strict l :
  Sorted (fun a b => str_ltb b a = false) l -> NoDup l ->
  Sorted (fun a b => str_ltb a b = true) l.
Proof.
  induction 1 as [|a l Hs IH Hh]; intros Hn; [constructor|].
  apply NoDup_cons in Hn as [Ha Hn]. constructor; [by apply IH|].
  destruct Hh as [|b l Hb]; constructor.
  destruct (str_ltb a b) eqn:E; [done|].
  exfalso. apply Ha. rewrite (str_ltb_total a b E Hb). by left.
Qed.

Lemma sorted_map_str l :
  Sorted (fun a b => str_ltb a b = true) l ->
  Sorted (fun a b => str_ltb (chars a) (chars b) = true) (map str l).
Proof.
  induction 1 as [|a l Hs IH Hh]; cbn; constructor; [done|].
  destruct Hh as [|b l Hb]; cbn; constructor. by rewrite !chars_str.
Qed.

(** X4. [save_hashes] truncates the seen-set file and then writes every
    hash of the set exactly once, one per line, in strictly increasing
    code-point order. *)
Theorem save_hashes_sorted_lines (hs : gset string) (mode : string) :
  exists L,
    save_hashes hs mode
    = ETruncate (hash_file_for_mode mode)
        :: map (fun h => EAppend (hash_file_for_mode mode) (String.append h newline)) L /\
    L ≡ₚ elements hs /\
    Sorted (fun a b => str_ltb (chars a) (chars b) = true) L.
Proof.
  exists (py_sorted hs). split; [reflexivity|]. split; [apply py_sorted_perm|].
  apply sorted_map_str, sorted_strict; [apply isort_sorted|].
  rewrite isort_perm. apply NoDup_ListNoDup, Finite.Injective_map_NoDup.
  - intros a b E. by rewrite <- (str_chars a), <- (str_chars b), E.
  - apply NoDup_ListNoDup, NoDup_elements.
Qed.




